(** * The parse-error diagnostic engine of [ansible.errors]

    A shallow embedding of [AnsibleError._get_error_lines_from_file] and
    [AnsibleError._get_extended_error] (lib/ansible/errors/__init__.py),
    together with the fragments of Python's runtime they rely on: [str]
    methods, list and string indexing with negative indices, [re.search]
    for the one pattern the engine uses, and the exceptions raised by
    [open] and [readlines].

    Conventions.
    - A Python [str] is a Rocq [string]; each [ascii] stands for the code
      point of the same number (U+0000 .. U+00FF).
    - A Python [int] is a [Z].
    - [None] is [None]; a source identifier is an [option string].
    - [to_text] is the identity on [str] and is left out.
    - The file system is a function from paths to what [open] and
      [readlines] meet there: a failure to open, a failure to decode, or
      the list of lines.
    - The texts of [ansible.errors.yaml_strings] are not part of the
      engine: a message is kept as the list of its pieces, and [render]
      takes the texts of the notes as a parameter. *)

From Stdlib Require Import ZArith List String Ascii Bool Lia.
From Stdlib Require Import DecimalString.
From Equations Require Import Equations.
Import ListNotations.

Local Open Scope string_scope.
Local Open Scope Z_scope.

(** ** Python's string and sequence primitives *)

Module Py.

Definition code (c : ascii) : N := N_of_ascii c.

(** [str.isspace] on one character, which is also [\s] of [re] on [str]
    patterns: U+0009..U+000D, U+001C..U+0020, U+0085, U+00A0. *)
Definition isspace (c : ascii) : bool :=
  let n := code c in
  ((9 <=? n) && (n <=? 13) || (28 <=? n) && (n <=? 32)
   || (n =? 133) || (n =? 160))%N.

(** [\w] of [re] on [str] patterns: [str.isalnum] or the underscore. *)
Definition isword (c : ascii) : bool :=
  let n := code c in
  ((48 <=? n) && (n <=? 57) || (65 <=? n) && (n <=? 90)
   || (97 <=? n) && (n <=? 122) || (n =? 95)
   || (n =? 170) || (n =? 178) || (n =? 179) || (n =? 181)
   || (n =? 185) || (n =? 186) || (188 <=? n) && (n <=? 190)
   || (192 <=? n) && (n <=? 214) || (216 <=? n) && (n <=? 246)
   || (248 <=? n) && (n <=? 255))%N.

Definition len (s : string) : Z := Z.of_nat (String.length s).

(** Truth value of a [str]: non-empty. *)
Definition truthy (s : string) : bool :=
  match s with EmptyString => false | String _ _ => true end.

Fixpoint lstrip (s : string) : string :=
  match s with
  | EmptyString => EmptyString
  | String c s' => if isspace c then lstrip s' else s
  end.

Fixpoint rstrip (s : string) : string :=
  match s with
  | EmptyString => EmptyString
  | String c s' =>
      match rstrip s' with
      | EmptyString => if isspace c then EmptyString else String c EmptyString
      | r => String c r
      end
  end.

Definition strip (s : string) : string := rstrip (lstrip s).

Fixpoint startswith (p s : string) : bool :=
  match p, s with
  | EmptyString, _ => true
  | String a p', String b s' => Ascii.eqb a b && startswith p' s'
  | String _ _, EmptyString => false
  end.

(** [sub in s]. *)
Fixpoint contains (sub s : string) : bool :=
  startswith sub s ||
  match s with
  | EmptyString => false
  | String _ s' => contains sub s'
  end.

(** [s.find(sub)]: the lowest index where [sub] starts, or -1. *)
Fixpoint find (sub s : string) : Z :=
  if startswith sub s then 0
  else match s with
       | EmptyString => -1
       | String _ s' => let r := find sub s' in if r <? 0 then -1 else r + 1
       end.

(** [s.count(c)] for a one-character [c]. *)
Fixpoint count (c : ascii) (s : string) : Z :=
  match s with
  | EmptyString => 0
  | String a s' => (if Ascii.eqb a c then 1 else 0) + count c s'
  end.

(** [s.replace(c, "")] for a one-character [c]. *)
Fixpoint remove (c : ascii) (s : string) : string :=
  match s with
  | EmptyString => EmptyString
  | String a s' => if Ascii.eqb a c then remove c s' else String a (remove c s')
  end.

(** [s.split(c)] for a one-character separator [c]. *)
Fixpoint split (c : ascii) (s : string) : list string :=
  match s with
  | EmptyString => [EmptyString]
  | String a s' =>
      if Ascii.eqb a c then EmptyString :: split c s'
      else match split c s' with
           | [] => [String a EmptyString]
           | p :: ps => String a p :: ps
           end
  end.

Fixpoint last (s : string) : option ascii :=
  match s with
  | EmptyString => None
  | String c EmptyString => Some c
  | String _ s' => last s'
  end.

Definition first (s : string) : option ascii :=
  match s with EmptyString => None | String c _ => Some c end.

(** [s.startswith(c)] and [s.endswith(c)] for a one-character [c]. *)
Definition startswith_char (c : ascii) (s : string) : bool :=
  match first s with Some a => Ascii.eqb a c | None => false end.

Definition endswith_char (c : ascii) (s : string) : bool :=
  match last s with Some a => Ascii.eqb a c | None => false end.

(** [" " * n]: empty when [n <= 0]. *)
Fixpoint spaces_nat (n : nat) : string :=
  match n with O => EmptyString | S n' => String " "%char (spaces_nat n') end.

Definition spaces (n : Z) : string := spaces_nat (Z.to_nat n).

(** [l[i]] on a list: indices [-len .. len-1] are valid, a negative
    index counts from the end, anything else is an [IndexError]
    ([None] here). *)
Definition getitem {A : Type} (l : list A) (i : Z) : option A :=
  let n := Z.of_nat (List.length l) in
  if 0 <=? i then nth_error l (Z.to_nat i)
  else if - n <=? i then nth_error l (Z.to_nat (n + i))
  else None.

(** [s[i]] on a [str], same index rules. *)
Definition getchar (s : string) (i : Z) : option ascii :=
  getitem (list_ascii_of_string s) i.

(** [str(n)], as produced by ["%s" % n] on an [int]. *)
Definition str_of_int (n : Z) : string := NilZero.string_of_int (Z.to_int n).

End Py.

(** ** The fragment of [re] used by the engine

    Character classes, [c+] on a class, [r?] and concatenation, matched
    by backtracking with a continuation, as [re] does. *)

Module Re.

Inductive regex : Type :=
| Cls (p : ascii -> bool)
| Plus (p : ascii -> bool)
| Opt (r : regex)
| Seq (r1 r2 : regex).

(** Zero or more characters of [p], longest first, then [k]. *)
Fixpoint many (p : ascii -> bool) (k : string -> bool) (s : string) : bool :=
  match s with
  | EmptyString => k s
  | String c s' => (p c && many p k s') || k s
  end.

Fixpoint matches (r : regex) (k : string -> bool) (s : string) : bool :=
  match r with
  | Cls p =>
      match s with
      | EmptyString => false
      | String c s' => p c && k s'
      end
  | Plus p =>
      match s with
      | EmptyString => false
      | String c s' => p c && many p k s'
      end
  | Opt r' => matches r' k s || k s
  | Seq r1 r2 => matches r1 (matches r2 k) s
  end.

(** [re.search(r, s)] as a truth value: a match starting anywhere. *)
Fixpoint search (r : regex) (s : string) : bool :=
  matches r (fun _ => true) s ||
  match s with
  | EmptyString => false
  | String _ s' => search r s'
  end.

Definition lit (c : ascii) : ascii -> bool := Ascii.eqb c.

(** [[\w/-]] *)
Definition word_slash_dash (c : ascii) : bool :=
  Py.isword c || Ascii.eqb c "/"%char || Ascii.eqb c "-"%char.

(** [r'\w+(\s+)?=(\s+)?[\w/-]+'] *)
Definition shorthand : regex :=
  Seq (Plus Py.isword)
      (Seq (Opt (Plus Py.isspace))
           (Seq (Cls (lit "="%char))
                (Seq (Opt (Plus Py.isspace)) (Plus word_slash_dash)))).

End Re.

(** ** Exceptions and the file system *)

Inductive exn : Type :=
| IOError              (* OSError: missing file, directory, permission *)
| TypeError
| IndexError
| UnicodeDecodeError.  (* a ValueError *)

Inductive result (A : Type) : Type :=
| Ok (a : A)
| Raise (e : exn).
Arguments Ok {A} a.
Arguments Raise {A} e.

Definition rbind {A B : Type} (r : result A) (k : A -> result B) : result B :=
  match r with
  | Ok a => k a
  | Raise e => Raise e
  end.

Notation "x <- r ;; k" := (rbind r (fun x => k))
  (at level 61, r at next level, right associativity).
Notation "' p <- r ;; k" := (rbind r (fun x => let 'p := x in k))
  (at level 61, p pattern, r at next level, right associativity).

(** What [open(name, 'r')] followed by [f.readlines()] meets. *)
Inductive file_state : Type :=
| NotOpenable                    (* [open] raises an OSError *)
| NotDecodable                   (* [readlines] raises UnicodeDecodeError *)
| Lines (lines : list string).   (* the list [readlines] returns *)

Definition filesystem : Type := string -> file_state.

(** [open] on a path that is not a [str] ([None]) raises TypeError. *)
Definition open_readlines (fs : filesystem) (file_name : option string)
  : result (list string) :=
  match file_name with
  | None => Raise TypeError
  | Some name =>
      match fs name with
      | NotOpenable => Raise IOError
      | NotDecodable => Raise UnicodeDecodeError
      | Lines lines => Ok lines
      end
  end.

Definition index {A : Type} (l : list A) (i : Z) : result A :=
  match Py.getitem l i with
  | Some a => Ok a
  | None => Raise IndexError
  end.

Definition char_at (s : string) (i : Z) : result ascii :=
  match Py.getchar s i with
  | Some c => Ok c
  | None => Raise IndexError
  end.

(** ** [_get_error_lines_from_file] *)

Definition blank (line : string) : bool := negb (Py.truthy (Py.strip line)).

Definition inspect {A : Type} (a : A) : {b : A | a = b} := exist _ a eq_refl.

(** The loop
<<
    target_line = lines[line_number]
    while not target_line.strip():
        line_number -= 1
        target_line = lines[line_number]
>>
    returning the final [(line_number, target_line)]. *)
Equations? walk (lines : list string) (line_number : Z) : result (Z * string)
  by wf (Z.to_nat (line_number + Z.of_nat (List.length lines) + 1)) lt :=
  walk lines line_number with inspect (Py.getitem lines line_number) := {
    | exist _ None _ => Raise IndexError
    | exist _ (Some target_line) Hget =>
        if blank target_line then walk lines (line_number - 1)
        else Ok (line_number, target_line) }.
Proof.
  unfold Py.getitem in Hget.
  destruct (0 <=? line_number) eqn:E0.
  - apply Z.leb_le in E0. lia.
  - apply Z.leb_gt in E0.
    destruct (- Z.of_nat (List.length lines) <=? line_number) eqn:E1;
      [|discriminate].
    apply Z.leb_le in E1. lia.
Qed.

(** Lines 134-136: [if line_number >= file_length: line_number =
    file_length - 1]. *)
Definition clamp (lines : list string) (line_number : Z) : Z :=
  let file_length := Z.of_nat (List.length lines) in
  if line_number >=? file_length then file_length - 1 else line_number.

(** Lines 134-151, on the list [readlines] returned: clamp, walk back
    over blank lines, then take the line before the one found when its
    index is above 0. *)
Definition resolve (lines : list string) (line_number : Z)
  : result (string * string) :=
  let line_number := clamp lines line_number in
  '(line_number, target_line) <- walk lines line_number ;;
  prev_line <- (if line_number >? 0 then index lines (line_number - 1)
                else Ok EmptyString) ;;
  Ok (target_line, prev_line).

Definition _get_error_lines_from_file
  (fs : filesystem) (file_name : option string) (line_number : Z)
  : result (string * string) :=
  lines <- open_readlines fs file_name ;;
  resolve lines line_number.

(** ** The diagnostic message

    [error_message] is built by appending pieces; it is kept here as the
    list of the pieces, and [render] concatenates their text. *)

Inductive note : Type :=
| YAML_COMMON_LEADING_TAB_ERROR
| YAML_COMMON_UNQUOTED_VARIABLE_ERROR
| YAML_COMMON_DICT_ERROR
| YAML_COMMON_UNQUOTED_COLON_ERROR
| YAML_COMMON_PARTIALLY_QUOTED_LINE_ERROR
| YAML_COMMON_UNBALANCED_QUOTES_ERROR
| YAML_AND_SHORTHAND_ERROR.

Inductive fragment : Type :=
| YAML_POSITION_DETAILS (src_file : option string) (line_number col_number : Z)
| OffendingLine (prev_line arrow_line : string)
| OffendingLines (prev_line target_line arrow_line : string)
| Note (n : note)
| CouldNotOpen
| NoLongerInFile.

Definition message : Type := list fragment.

Definition note_eqb (a b : note) : bool :=
  match a, b with
  | YAML_COMMON_LEADING_TAB_ERROR, YAML_COMMON_LEADING_TAB_ERROR
  | YAML_COMMON_UNQUOTED_VARIABLE_ERROR, YAML_COMMON_UNQUOTED_VARIABLE_ERROR
  | YAML_COMMON_DICT_ERROR, YAML_COMMON_DICT_ERROR
  | YAML_COMMON_UNQUOTED_COLON_ERROR, YAML_COMMON_UNQUOTED_COLON_ERROR
  | YAML_COMMON_PARTIALLY_QUOTED_LINE_ERROR, YAML_COMMON_PARTIALLY_QUOTED_LINE_ERROR
  | YAML_COMMON_UNBALANCED_QUOTES_ERROR, YAML_COMMON_UNBALANCED_QUOTES_ERROR
  | YAML_AND_SHORTHAND_ERROR, YAML_AND_SHORTHAND_ERROR => true
  | _, _ => false
  end.

(** The heuristic notes of a message, in order. *)
Fixpoint notes (m : message) : list note :=
  match m with
  | [] => []
  | Note n :: m' => n :: notes m'
  | _ :: m' => notes m'
  end.

Definition has_note (n : note) (m : message) : bool :=
  existsb (note_eqb n) (notes m).

(** The positional headers of a message, as [(line, column)]. *)
Fixpoint headers (m : message) : list (Z * Z) :=
  match m with
  | [] => []
  | YAML_POSITION_DETAILS _ l c :: m' => (l, c) :: headers m'
  | _ :: m' => headers m'
  end.

Definition nl : string := String "010"%char EmptyString.
Definition dquote : ascii := "034"%char.
Definition squote : ascii := "'"%char.
Definition tab : ascii := "009"%char.

Section Render.

(** The texts of [ansible.errors.yaml_strings]. *)
Variable yaml_strings : note -> string.

Definition str_of_src (src_file : option string) : string :=
  match src_file with
  | None => "None"
  | Some s => s
  end.

Definition render_fragment (f : fragment) : string :=
  match f with
  | YAML_POSITION_DETAILS src_file line_number col_number =>
      "The error appears to be in '" ++ str_of_src src_file ++ "': line "
      ++ Py.str_of_int line_number ++ ", column " ++ Py.str_of_int col_number
      ++ ", but may" ++ nl
      ++ "be elsewhere in the file depending on the exact syntax problem." ++ nl
  | OffendingLine prev_line arrow_line =>
      nl ++ "The offending line appears to be:" ++ nl ++ nl
      ++ prev_line ++ nl ++ arrow_line ++ nl ++ nl
  | OffendingLines prev_line target_line arrow_line =>
      nl ++ "The offending line appears to be:" ++ nl ++ nl
      ++ prev_line ++ nl ++ target_line ++ nl ++ arrow_line ++ nl
  | Note n => yaml_strings n
  | CouldNotOpen => nl ++ "(could not open file to display line)"
  | NoLongerInFile =>
      nl ++ "(specified line no longer in file, maybe it changed?)"
  end.

Definition render (m : message) : string :=
  fold_right (fun f acc => render_fragment f ++ acc) EmptyString m.

End Render.

(** ** [_get_extended_error]

    The body of the [try] runs in a monad that threads [error_message]
    and may raise; what was appended before a raise is kept, as for the
    Python local. *)

Definition M (A : Type) : Type := message -> message * result A.

Definition ret {A : Type} (a : A) : M A := fun m => (m, Ok a).

Definition bind {A B : Type} (c : M A) (k : A -> M B) : M B :=
  fun m =>
    match c m with
    | (m', Ok a) => k a m'
    | (m', Raise e) => (m', Raise e)
    end.

Definition lift {A : Type} (r : result A) : M A := fun m => (m, r).

(** [error_message += f] *)
Definition append (f : fragment) : M unit := fun m => ((m ++ [f])%list, Ok tt).

(** [error_message = f] *)
Definition assign (f : fragment) : M unit := fun _ => ([f], Ok tt).

Definition when (b : bool) (c : M unit) : M unit := if b then c else ret tt.

Notation "c1 >> c2" := (bind c1 (fun _ => c2))
  (at level 61, right associativity).
Notation "x <~ c1 ;; c2" := (bind c1 (fun x => c2))
  (at level 61, c1 at next level, right associativity).
Notation "' p <~ c1 ;; c2" := (bind c1 (fun x => let 'p := x in c2))
  (at level 61, p pattern, c1 at next level, right associativity).

Definition is_quote (c : ascii) : bool := Ascii.eqb c dquote || Ascii.eqb c squote.

(** Line 222: both markers occur in [target_line], and the open marker
    preceded by a double quote does not occur or the open marker preceded
    by a single quote does not occur. *)
Definition unquoted_variable (target_line : string) : bool :=
  (Py.contains "{{" target_line && Py.contains "}}" target_line)
  && (negb (Py.contains (String dquote "{{") target_line)
      || negb (Py.contains (String squote "{{") target_line)).

(** Line 226: a colon directly followed by the open marker, and the close
    marker, both occur in [stripped_line]. *)
Definition dict_marker (stripped_line : string) : bool :=
  Py.contains ":{{" stripped_line && Py.contains "}}" stripped_line.

(** Lines 230-234: [len(target_line) and len(target_line) > 1 and
    len(target_line) > col_number], then the character at [col_number] is
    a colon and [target_line] counts more than one colon. The index is
    only evaluated when the three length tests hold. *)
Definition unquoted_colon (target_line : string) (col_number : Z) : result bool :=
  if negb (Py.len target_line =? 0) && (Py.len target_line >? 1)
     && (Py.len target_line >? col_number)
  then c <- char_at target_line col_number ;;
       Ok (Ascii.eqb c ":"%char && (Py.count ":"%char target_line >? 1))
  else Ok false.

(** The [if]/[elif] setting [match]. *)
Definition partially_quoted (middle : string) : bool :=
  if Py.startswith_char squote middle && negb (Py.endswith_char squote middle)
  then true
  else if Py.startswith_char dquote middle && negb (Py.endswith_char dquote middle)
  then true
  else false.

(** Lines 261-265: [A and B and C and D or E], where [A] is
    [len(middle) > 0], [B] and [C] test that [middle[0]] and [middle[-1]]
    are quote characters, [D] is that [target_line] counts more than two
    single quotes and [E] that it counts more than two double quotes.
    Python's [and] binds tighter than [or]: [(A and B and C and D) or E]. *)
Definition unbalanced_quotes (middle target_line : string) : result bool :=
  conj <- (if Py.len middle >? 0 then
             c0 <- char_at middle 0 ;;
             if is_quote c0 then
               c1 <- char_at middle (-1) ;;
               if is_quote c1 then Ok (Py.count squote target_line >? 2)
               else Ok false
             else Ok false
           else Ok false) ;;
  if conj then Ok true else Ok (Py.count dquote target_line >? 2).

(** The final [else] of the chain: the quoting checks. *)
Definition quote_checks (target_line : string) : M unit :=
  let parts := Py.split ":"%char target_line in
  if Z.of_nat (List.length parts) >? 1 then
    part <~ lift (index parts 1) ;;
    let middle := Py.strip part in
    let match_ := partially_quoted middle in
    unbalanced <~ lift (unbalanced_quotes middle target_line) ;;
    when match_ (append (Note YAML_COMMON_PARTIALLY_QUOTED_LINE_ERROR)) >>
    when unbalanced (append (Note YAML_COMMON_UNBALANCED_QUOTES_ERROR))
  else ret tt.

(** The tab check and the [if]/[elif]/[elif]/[else] chain after it. *)
Definition checks (target_line : string) (col_number : Z) : M unit :=
  let stripped_line := Py.remove " "%char target_line in
  when (Py.contains (String tab EmptyString) target_line)
       (append (Note YAML_COMMON_LEADING_TAB_ERROR)) >>
  if unquoted_variable target_line then
    append (Note YAML_COMMON_UNQUOTED_VARIABLE_ERROR)
  else if dict_marker stripped_line then
    append (Note YAML_COMMON_DICT_ERROR)
  else
    colon <~ lift (unquoted_colon target_line col_number) ;;
    if colon then append (Note YAML_COMMON_UNQUOTED_COLON_ERROR)
    else quote_checks target_line.

(** The body of [if target_line:]. *)
Definition explain (src_file : option string) (line_number col_number : Z)
  (target_line prev_line : string) : M unit :=
  (if Re.search Re.shorthand prev_line then
     let error_position := Py.find "=" (Py.rstrip prev_line) in
     let arrow_line := Py.spaces error_position ++ "^ here" in
     assign (YAML_POSITION_DETAILS src_file (line_number - 1) (error_position + 1)) >>
     append (OffendingLine (Py.rstrip prev_line) arrow_line) >>
     append (Note YAML_AND_SHORTHAND_ERROR)
   else
     let arrow_line := Py.spaces (col_number - 1) ++ "^ here" in
     append (OffendingLines (Py.rstrip prev_line) (Py.rstrip target_line) arrow_line)) >>
  checks target_line col_number.

Definition is_sentinel (src_file : option string) : bool :=
  match src_file with
  | Some s => String.eqb s "<string>" || String.eqb s "<unicode>"
  | None => false
  end.

(** The body of the [try]. *)
Definition try_body (fs : filesystem) (show_content : bool)
  (src_file : option string) (line_number col_number : Z) : M unit :=
  append (YAML_POSITION_DETAILS src_file line_number col_number) >>
  if negb (is_sentinel src_file) && show_content then
    '(target_line, prev_line) <~
       lift (_get_error_lines_from_file fs src_file (line_number - 1)) ;;
    if Py.truthy target_line then
      explain src_file line_number col_number target_line prev_line
    else ret tt
  else ret tt.

(** [except (IOError, TypeError)] and [except IndexError], applied to the
    outcome of the [try] body; any other exception leaves the function. *)
Definition except_clauses (outcome : message * result unit) : result message :=
  match outcome with
  | (error_message, Ok _) => Ok error_message
  | (error_message, Raise IOError)
  | (error_message, Raise TypeError) => Ok (error_message ++ [CouldNotOpen])%list
  | (error_message, Raise IndexError) => Ok (error_message ++ [NoLongerInFile])%list
  | (_, Raise e) => Raise e
  end.

Definition _get_extended_error (fs : filesystem) (show_content : bool)
  (src_file : option string) (line_number col_number : Z) : result message :=
  except_clauses (try_body fs show_content src_file line_number col_number []).

(** The indices the backward walk started at [i] reads from [lines]. *)
Inductive reads (lines : list string) : Z -> Z -> Prop :=
| reads_here (i : Z) : reads lines i i
| reads_back (i j : Z) (t : string) :
    Py.getitem lines i = Some t -> blank t = true ->
    reads lines (i - 1) j -> reads lines i j.

(** A string has a character that is not white space. *)
Definition has_nonspace (s : string) : bool :=
  existsb (fun c => negb (Py.isspace c)) (list_ascii_of_string s).

(** ** Definitions used by the statements *)

(** The notes the tab check contributes. *)
Definition tab_notes (target_line : string) : list note :=
  if Py.contains (String tab EmptyString) target_line
  then [YAML_COMMON_LEADING_TAB_ERROR] else [].

(** Whether one of the three chained checks fires: the conditions of the
    [if] and the two [elif], in order. *)
Definition chain_fires (target_line : string) (col_number : Z) : result bool :=
  if unquoted_variable target_line then Ok true
  else if dict_marker (Py.remove " "%char target_line) then Ok true
  else unquoted_colon target_line col_number.

(** The message before the checks run: the rewritten header with the
    shorthand block, or the header with the two offending lines. *)
Definition block (src_file : option string) (line_number col_number : Z)
  (target_line prev_line : string) : message :=
  if Re.search Re.shorthand prev_line then
    let error_position := Py.find "=" (Py.rstrip prev_line) in
    [YAML_POSITION_DETAILS src_file (line_number - 1) (error_position + 1);
     OffendingLine (Py.rstrip prev_line) (Py.spaces error_position ++ "^ here");
     Note YAML_AND_SHORTHAND_ERROR]
  else
    [YAML_POSITION_DETAILS src_file line_number col_number;
     OffendingLines (Py.rstrip prev_line) (Py.rstrip target_line)
       (Py.spaces (col_number - 1) ++ "^ here")].

(** The notes of a returned message. *)
Definition notes_of (r : result message) : list note :=
  match r with
  | Ok m => notes m
  | Raise _ => []
  end.

(** ** Sample inputs *)

(** A line as [readlines] returns it, and a file system holding one
    readable file. *)
Definition line (s : string) : string := s ++ nl.

Definition playbook (lines : list string) : filesystem :=
  fun name => if String.eqb name "playbook.yml" then Lines lines else NotOpenable.

Definition undecodable : filesystem := fun _ => NotDecodable.

Definition q : string := String dquote EmptyString.

(** ** [AnsibleError.message]

    The fields of an [AnsibleError] that the property reads. [obj] is the
    [ansible_pos] of the object when it is an [AnsibleBaseYAMLObject] and
    [None] otherwise; [orig_exc] is the text [to_native] gives for the
    original exception, [None] when there is none. *)

Record AnsibleError : Type := {
  _message : string;
  obj : option (option string * Z * Z);
  _show_content : bool;
  _suppress_extended_error : bool;
  orig_exc : option string
}.

(** Lines 84-104. The list [message] is joined as it is built. *)
Definition AnsibleError_message (yaml_strings : note -> string)
  (fs : filesystem) (self : AnsibleError) : result string :=
  match obj self with
  | Some (src_file, line_number, col_number) =>
      pieces <- _get_extended_error fs (_show_content self)
                  src_file line_number col_number ;;
      let extended_error := render yaml_strings pieces in
      if Py.truthy extended_error && negb (_suppress_extended_error self)
      then Ok (_message self ++ (nl ++ nl ++ extended_error))
      else Ok (_message self)
  | None =>
      match orig_exc self with
      | Some e => Ok (_message self ++ (". " ++ e))
      | None => Ok (_message self)
      end
  end.

(** The order in which the classifier can append its notes. *)
Definition note_order : list note :=
  [YAML_AND_SHORTHAND_ERROR; YAML_COMMON_LEADING_TAB_ERROR;
   YAML_COMMON_UNQUOTED_VARIABLE_ERROR; YAML_COMMON_DICT_ERROR;
   YAML_COMMON_UNQUOTED_COLON_ERROR;
   YAML_COMMON_PARTIALLY_QUOTED_LINE_ERROR;
   YAML_COMMON_UNBALANCED_QUOTES_ERROR].

(** [a] is [b] with some elements left out. *)
Fixpoint subseq (a b : list note) : bool :=
  match a, b with
  | [], _ => true
  | _ :: _, [] => false
  | x :: a', y :: b' => if note_eqb x y then subseq a' b' else subseq a b'
  end.

Definition all_chars (p : ascii -> bool) (s : string) : bool :=
  forallb p (list_ascii_of_string s).

(** ** [ansible.utils.helpers.deduplicate_list]

    [[x for x in original_list if x not in seen and not seen.add(x)]]:
    [seen.add] returns [None], so the second conjunct holds and only adds
    [x] to [seen]. The set is kept as the list of its members. *)

Section Helpers.

Variable A : Type.
Variable eq_dec : forall x y : A, {x = y} + {x <> y}.

Definition mem (x : A) (seen : list A) : bool :=
  if in_dec eq_dec x seen then true else false.

Fixpoint dedup_from (seen : list A) (original_list : list A) : list A :=
  match original_list with
  | [] => []
  | x :: rest =>
      if negb (mem x seen) then x :: dedup_from (x :: seen) rest
      else dedup_from seen rest
  end.

Definition deduplicate_list (original_list : list A) : list A :=
  dedup_from [] original_list.

End Helpers.

(** ** [ansible.utils.path]

    The functions of [os] and [os.path] that [unfrackpath] and
    [is_subpath] call are taken as given; the separator is the POSIX
    one. Byte and text conversions are the identity. *)

Record os_path : Type := {
  getcwd : string;
  isfile : string -> bool;
  dirname : string -> string;
  expandvars : string -> string;
  expanduser : string -> string;
  isabs : string -> bool;
  join : string -> string -> string;
  realpath : string -> string;
  normpath : string -> string
}.

Definition sep : ascii := "/"%char.

(** Lines 30-80. *)
Definition unfrackpath (os : os_path) (path : string) (follow : bool)
  (basedir : option string) : string :=
  let b_basedir :=
    match basedir with
    | None => getcwd os
    | Some b => if isfile os b then dirname os b else b
    end in
  let b_final_path := expanduser os (expandvars os path) in
  let b_final_path :=
    if negb (isabs os b_final_path) then join os b_basedir b_final_path
    else b_final_path in
  let b_final_path :=
    if follow then realpath os b_final_path else b_final_path in
  normpath os b_final_path.

Fixpoint list_eqb (a b : list string) : bool :=
  match a, b with
  | [], [] => true
  | x :: a', y :: b' => String.eqb x y && list_eqb a' b'
  | _, _ => false
  end.

(** The two paths [is_subpath] compares, lines 184-190. *)
Definition abs_path (os : os_path) (real : bool) (path : string) : string :=
  let abs := unfrackpath os path false None in
  if real then realpath os abs else abs.

(** Lines 172-205. A slice never raises, so the [except] is dead. *)
Definition is_subpath (os : os_path) (child parent : string) (real : bool)
  : bool :=
  let abs_child := abs_path os real child in
  let abs_parent := abs_path os real parent in
  let c := Py.split sep abs_child in
  let p := Py.split sep abs_parent in
  list_eqb (firstn (List.length p) c) p.

(** [sep.join(l)] *)
Fixpoint str_join (c : ascii) (l : list string) : string :=
  match l with
  | [] => EmptyString
  | [x] => x
  | x :: rest => x ++ String c (str_join c rest)
  end.

(** ** [ansible.utils.singleton.Singleton]

    [__call__] within one thread: the lock is re-entrant and does not
    block, [cls.__instance] is the state, and the parent's [__call__]
    gives an instance or raises ([None]). *)

Section Singleton.

Variables (args instance : Type).
Variable construct : args -> option instance.



End Singleton.

(** What [checks] can append after the tab note. *)
Definition chain_tails : list (list note) :=
  [[YAML_COMMON_UNQUOTED_VARIABLE_ERROR];
   [YAML_COMMON_DICT_ERROR];
   [YAML_COMMON_UNQUOTED_COLON_ERROR];
   [];
   [YAML_COMMON_PARTIALLY_QUOTED_LINE_ERROR];
   [YAML_COMMON_UNBALANCED_QUOTES_ERROR];
   [YAML_COMMON_PARTIALLY_QUOTED_LINE_ERROR;
    YAML_COMMON_UNBALANCED_QUOTES_ERROR]].

Ltac run_monad :=
  unfold bind, when, append, ret, lift; simpl.

(** * Properties *)

(** ** Sequences and strings *)

Lemma getitem_Some_bounds {A : Type} (l : list A) (i : Z) (a : A) :
  Py.getitem l i = Some a ->
  - Z.of_nat (List.length l) <= i < Z.of_nat (List.length l).
Proof.
  unfold Py.getitem. intros H.
  destruct (0 <=? i) eqn:E0.
  - apply Z.leb_le in E0.
    assert (Hn : nth_error l (Z.to_nat i) <> None) by congruence.
    apply nth_error_Some in Hn. lia.
  - apply Z.leb_gt in E0.
    destruct (- Z.of_nat (List.length l) <=? i) eqn:E1; [|discriminate].
    apply Z.leb_le in E1. lia.
Qed.

Lemma truthy_lstrip (s : string) : Py.truthy (Py.lstrip s) = has_nonspace s.
Proof.
  unfold has_nonspace.
  induction s as [|c s IH]; simpl; [reflexivity|].
  destruct (Py.isspace c); simpl; [exact IH | reflexivity].
Qed.

Lemma truthy_rstrip (s : string) : Py.truthy (Py.rstrip s) = has_nonspace s.
Proof.
  unfold has_nonspace.
  induction s as [|c s IH]; simpl; [reflexivity|].
  destruct (Py.rstrip s) eqn:E; simpl in *.
  - rewrite <- IH. destruct (Py.isspace c); reflexivity.
  - rewrite <- IH. rewrite orb_true_r. reflexivity.
Qed.

Lemma has_nonspace_lstrip (s : string) : has_nonspace (Py.lstrip s) = has_nonspace s.
Proof.
  unfold has_nonspace.
  induction s as [|c s IH]; simpl; [reflexivity|].
  destruct (Py.isspace c) eqn:E; simpl; [exact IH | rewrite E; reflexivity].
Qed.

Lemma blank_spec (s : string) : blank s = negb (has_nonspace s).
Proof.
  unfold blank, Py.strip.
  rewrite truthy_rstrip, has_nonspace_lstrip. reflexivity.
Qed.

Lemma has_nonspace_In (s : string) :
  has_nonspace s = true <->
  exists c, In c (list_ascii_of_string s) /\ Py.isspace c = false.
Proof.
  unfold has_nonspace. rewrite existsb_exists.
  split; intros [c [Hin Hc]]; exists c; split; auto.
  - now apply negb_true_iff.
  - now apply negb_true_iff.
Qed.

Lemma has_nonspace_cons (c : ascii) (s : string) :
  has_nonspace (String c s) = negb (Py.isspace c) || has_nonspace s.
Proof. reflexivity. Qed.

Lemma has_nonspace_app (u v : string) :
  has_nonspace (u ++ v) = has_nonspace u || has_nonspace v.
Proof.
  unfold has_nonspace.
  induction u as [|c u IH]; simpl; [reflexivity|].
  rewrite IH. apply orb_assoc.
Qed.

Lemma truthy_app_r (u v : string) : Py.truthy v = true -> Py.truthy (u ++ v) = true.
Proof. destruct u; simpl; auto. Qed.

Lemma rstrip_app (u v : string) :
  has_nonspace v = true -> Py.rstrip (u ++ v) = u ++ Py.rstrip v.
Proof.
  intros Hv. induction u as [|c u IH]; simpl; [reflexivity|].
  rewrite IH.
  assert (Ht : Py.truthy (u ++ Py.rstrip v) = true).
  { apply truthy_app_r. now rewrite truthy_rstrip. }
  destruct (u ++ Py.rstrip v); [discriminate | reflexivity].
Qed.

Lemma rstrip_cons (c : ascii) (v : string) :
  has_nonspace v = true -> Py.rstrip (String c v) = String c (Py.rstrip v).
Proof.
  intros Hv. apply (rstrip_app (String c EmptyString) v Hv).
Qed.

Lemma find_char_lower (c : ascii) (s : string) :
  -1 <= Py.find (String c EmptyString) s.
Proof.
  induction s as [|a s IH]; simpl; [lia|].
  destruct (Ascii.eqb c a); simpl; [lia|].
  destruct (Py.find (String c EmptyString) s <? 0) eqn:E; [lia|].
  apply Z.ltb_ge in E. lia.
Qed.

Lemma find_char_app (c : ascii) (u v : string) :
  0 <= Py.find (String c EmptyString) (u ++ String c v).
Proof.
  induction u as [|a u IH]; simpl.
  - rewrite Ascii.eqb_refl. simpl. lia.
  - destruct (Ascii.eqb c a); simpl; [lia|].
    destruct (Py.find (String c EmptyString) (u ++ String c v) <? 0) eqn:E.
    + apply Z.ltb_lt in E. lia.
    + lia.
Qed.

Lemma find_char_getchar (c : ascii) (s : string) :
  0 <= Py.find (String c EmptyString) s ->
  Py.getchar s (Py.find (String c EmptyString) s) = Some c.
Proof.
  unfold Py.getchar, Py.getitem.
  intros H. apply Z.leb_le in H as Hb. rewrite Hb. clear Hb.
  induction s as [|a s IH]; simpl in *; [lia|].
  destruct (Ascii.eqb c a) eqn:Ea; simpl in *.
  - apply Ascii.eqb_eq in Ea. now subst.
  - destruct (Py.find (String c EmptyString) s <? 0) eqn:E; [lia|].
    apply Z.ltb_ge in E.
    replace (Z.to_nat (Py.find (String c EmptyString) s + 1))
      with (S (Z.to_nat (Py.find (String c EmptyString) s))) by lia.
    simpl. apply IH. exact E.
Qed.

(** ** The shorthand pattern *)

Lemma many_suffix (p : ascii -> bool) (k : string -> bool) (s : string) :
  Re.many p k s = true -> exists u v, s = u ++ v /\ k v = true.
Proof.
  induction s as [|c s IH]; simpl; intros H.
  - exists EmptyString, EmptyString. auto.
  - apply orb_true_iff in H as [H|H].
    + apply andb_true_iff in H as [_ H].
      destruct (IH H) as (u & v & -> & Hk).
      exists (String c u), v. auto.
    + exists EmptyString, (String c s). auto.
Qed.

Lemma matches_suffix (r : Re.regex) :
  forall (k : string -> bool) (s : string),
    Re.matches r k s = true -> exists u v, s = u ++ v /\ k v = true.
Proof.
  induction r as [p|p|r IH|r1 IH1 r2 IH2]; intros k s H; simpl in H.
  - destruct s as [|c s]; [discriminate|].
    apply andb_true_iff in H as [_ H].
    exists (String c EmptyString), s. auto.
  - destruct s as [|c s]; [discriminate|].
    apply andb_true_iff in H as [_ H].
    destruct (many_suffix _ _ _ H) as (u & v & -> & Hk).
    exists (String c u), v. auto.
  - apply orb_true_iff in H as [H|H].
    + apply IH; exact H.
    + exists EmptyString, s. auto.
  - destruct (IH1 _ _ H) as (u & v & -> & H2).
    destruct (IH2 _ _ H2) as (u' & v' & -> & Hk).
    exists (u ++ u'), v'. split; [|exact Hk].
    clear. induction u; simpl; congruence.
Qed.

Lemma search_suffix (r : Re.regex) (s : string) :
  Re.search r s = true ->
  exists u v, s = u ++ v /\ Re.matches r (fun _ => true) v = true.
Proof.
  induction s as [|c s IH]; simpl; intros H.
  - rewrite orb_false_r in H. exists EmptyString, EmptyString. auto.
  - apply orb_true_iff in H as [H|H].
    + exists EmptyString, (String c s). auto.
    + destruct (IH H) as (u & v & -> & Hm).
      exists (String c u), v. auto.
Qed.

Lemma word_slash_dash_not_space (c : ascii) :
  Re.word_slash_dash c = true -> Py.isspace c = false.
Proof.
  destruct c as [[] [] [] [] [] [] [] []]; vm_compute; congruence.
Qed.

Lemma string_app_empty (a : string) : a ++ EmptyString = a.
Proof. induction a; simpl; congruence. Qed.

Lemma string_app_assoc (a b c : string) : (a ++ b) ++ c = a ++ (b ++ c).
Proof. induction a; simpl; congruence. Qed.

(** A line matched by the shorthand pattern has an equals sign with a
    non-blank remainder after it. *)
Lemma shorthand_has_equals (s : string) :
  Re.search Re.shorthand s = true ->
  exists u v, s = u ++ String "="%char v /\ has_nonspace v = true.
Proof.
  intros H.
  destruct (search_suffix _ _ H) as (u0 & s0 & -> & H0).
  unfold Re.shorthand in H0. cbn [Re.matches] in H0.
  destruct s0 as [|c0 s1]; [discriminate|].
  apply andb_true_iff in H0 as [_ H0].
  destruct (many_suffix _ _ _ H0) as (u1 & s2 & -> & H1).
  assert (H2 : exists u2 s3, s2 = u2 ++ s3 /\
            Re.matches (Re.Cls (Re.lit "="%char))
              (fun s => Re.matches (Re.Opt (Re.Plus Py.isspace))
                 (Re.matches (Re.Plus Re.word_slash_dash) (fun _ => true)) s)
              s3 = true).
  { apply orb_true_iff in H1 as [H1|H1].
    - destruct s2 as [|c s2]; [discriminate|].
      apply andb_true_iff in H1 as [_ H1].
      destruct (many_suffix _ _ _ H1) as (u & v & -> & Hk).
      exists (String c u), v. split; [reflexivity|exact Hk].
    - exists EmptyString, s2. split; [reflexivity|exact H1]. }
  destruct H2 as (u2 & s3 & -> & H2).
  cbn [Re.matches] in H2.
  destruct s3 as [|c3 s4]; [discriminate|].
  apply andb_true_iff in H2 as [Hc H2].
  unfold Re.lit in Hc. apply Ascii.eqb_eq in Hc. subst c3.
  exists (u0 ++ String c0 u1 ++ u2), s4. split.
  - simpl. rewrite !string_app_assoc. simpl. rewrite !string_app_assoc. reflexivity.
  - assert (H3 : exists u v, s4 = u ++ v /\
              Re.matches (Re.Plus Re.word_slash_dash) (fun _ => true) v = true).
    { apply (matches_suffix (Re.Opt (Re.Plus Py.isspace))). exact H2. }
    destruct H3 as (u & v & -> & H3). simpl in H3.
    destruct v as [|d v]; [discriminate|].
    apply andb_true_iff in H3 as [Hd _].
    apply word_slash_dash_not_space in Hd.
    rewrite has_nonspace_app, has_nonspace_cons, Hd. simpl. apply orb_true_r.
Qed.

Lemma shorthand_find_equals (s : string) :
  Re.search Re.shorthand s = true ->
  0 <= Py.find "=" (Py.rstrip s).
Proof.
  intros H. destruct (shorthand_has_equals s H) as (u & v & -> & Hv).
  rewrite rstrip_app.
  - rewrite rstrip_cons by exact Hv. apply find_char_app.
  - rewrite has_nonspace_cons, Hv. apply orb_true_r.
Qed.

(** ** The backward walk *)

Lemma walk_step (lines : list string) (i : Z) :
  walk lines i =
  match Py.getitem lines i with
  | None => Raise IndexError
  | Some t => if blank t then walk lines (i - 1) else Ok (i, t)
  end.
Proof.
  apply (walk_elim (fun lines i r =>
    r = match Py.getitem lines i with
        | None => Raise IndexError
        | Some t => if blank t then walk lines (i - 1) else Ok (i, t)
        end)); clear.
  - intros lines i t Hget _ _. rewrite Hget. reflexivity.
  - intros lines i Hget _. rewrite Hget. reflexivity.
Qed.

(** Induction on the walk: the index only goes down, and stops below
    [- length lines]. *)
Lemma walk_induction (lines : list string) (P : Z -> Prop) :
  (forall i, Py.getitem lines i = None -> P i) ->
  (forall i t, Py.getitem lines i = Some t -> blank t = false -> P i) ->
  (forall i t, Py.getitem lines i = Some t -> blank t = true ->
               P (i - 1) -> P i) ->
  forall i, P i.
Proof.
  intros Hnone Hstop Hback i.
  remember (Z.to_nat (i + Z.of_nat (List.length lines) + 1)) as n eqn:En.
  revert i En. induction n as [n IH] using lt_wf_ind. intros i En.
  destruct (Py.getitem lines i) as [t|] eqn:Hget.
  - destruct (blank t) eqn:Hb.
    + apply (Hback i t Hget Hb).
      apply getitem_Some_bounds in Hget.
      apply (IH (Z.to_nat (i - 1 + Z.of_nat (List.length lines) + 1))); lia.
    + apply (Hstop i t Hget Hb).
  - apply Hnone. exact Hget.
Qed.

Lemma walk_ok (lines : list string) (i j : Z) (t : string) :
  walk lines i = Ok (j, t) ->
  j <= i /\ Py.getitem lines j = Some t /\ blank t = false /\ reads lines i j.
Proof.
  revert j t. pattern i. apply (walk_induction lines); clear i.
  - intros i Hget j t H. rewrite walk_step, Hget in H. discriminate.
  - intros i t0 Hget Hb j t H. rewrite walk_step, Hget, Hb in H.
    inversion H; subst. repeat split; auto; try lia. constructor.
  - intros i t0 Hget Hb IH j t H. rewrite walk_step, Hget, Hb in H.
    destruct (IH j t H) as (Hle & Hj & Hnb & Hr).
    repeat split; auto; try lia. eapply reads_back; eauto.
Qed.

(** The walk fails with IndexError or returns; it never raises anything
    else. *)
Lemma walk_total (lines : list string) (i : Z) :
  walk lines i = Raise IndexError \/ exists j t, walk lines i = Ok (j, t).
Proof.
  pattern i. apply (walk_induction lines); clear i.
  - intros i Hget. left. rewrite walk_step, Hget. reflexivity.
  - intros i t Hget Hb. right. exists i, t.
    rewrite walk_step, Hget, Hb. reflexivity.
  - intros i t Hget Hb IH. rewrite walk_step, Hget, Hb. exact IH.
Qed.

Lemma reads_le (lines : list string) (i j : Z) : reads lines i j -> j <= i.
Proof. induction 1; lia. Qed.

Lemma clamp_lt (lines : list string) (n : Z) :
  clamp lines n < Z.of_nat (List.length lines).
Proof.
  unfold clamp.
  destruct (n >=? Z.of_nat (List.length lines)) eqn:E; [lia|].
  rewrite Z.geb_leb in E. apply Z.leb_gt in E. lia.
Qed.

Lemma clamp_le (lines : list string) (n : Z) : clamp lines n <= n.
Proof.
  unfold clamp.
  destruct (n >=? Z.of_nat (List.length lines)) eqn:E; [|lia].
  rewrite Z.geb_leb in E. apply Z.leb_le in E. lia.
Qed.

Lemma clamp_beyond (lines : list string) (n : Z) :
  Z.of_nat (List.length lines) <= n ->
  clamp lines n = Z.of_nat (List.length lines) - 1.
Proof.
  intros H. unfold clamp.
  destruct (n >=? Z.of_nat (List.length lines)) eqn:E; [reflexivity|].
  rewrite Z.geb_leb in E. apply Z.leb_gt in E. lia.
Qed.

Lemma clamp_last (lines : list string) :
  clamp lines (Z.of_nat (List.length lines) - 1)
  = Z.of_nat (List.length lines) - 1.
Proof.
  unfold clamp.
  destruct (Z.of_nat (List.length lines) - 1 >=? Z.of_nat (List.length lines));
    reflexivity.
Qed.

(** What [resolve] returns, spelled out. *)
Lemma resolve_ok (lines : list string) (n : Z) (t p : string) :
  resolve lines n = Ok (t, p) ->
  exists j, walk lines (clamp lines n) = Ok (j, t) /\
            ((j > 0 /\ Py.getitem lines (j - 1) = Some p) \/
             (j <= 0 /\ p = EmptyString)).
Proof.
  unfold resolve. intros H.
  destruct (walk lines (clamp lines n)) as [[j t0]|e] eqn:Hw; simpl in H;
    [|discriminate].
  exists j. destruct (j >? 0) eqn:Hj.
  - unfold index in H.
    destruct (Py.getitem lines (j - 1)) as [p0|] eqn:Hp; simpl in H;
      [|discriminate].
    inversion H; subst. split; [reflexivity|]. left. split; [lia|reflexivity].
  - simpl in H. inversion H; subst. split; [reflexivity|]. right.
    split; [|reflexivity].
    rewrite Z.gtb_ltb in Hj. apply Z.ltb_ge in Hj. exact Hj.
Qed.

Lemma get_lines_ok (fs : filesystem) (src : option string) (n : Z)
  (t p : string) :
  _get_error_lines_from_file fs src n = Ok (t, p) ->
  exists name lines, src = Some name /\ fs name = Lines lines /\
                     resolve lines n = Ok (t, p).
Proof.
  unfold _get_error_lines_from_file, open_readlines. intros H.
  destruct src as [name|]; [|discriminate].
  destruct (fs name) as [| |lines] eqn:Hfs; try discriminate.
  exists name, lines. auto.
Qed.

(** ** Messages *)

Lemma notes_app (a b : message) : notes (a ++ b)%list = (notes a ++ notes b)%list.
Proof.
  induction a as [|f a IH]; simpl; [reflexivity|].
  destruct f; simpl; rewrite IH; reflexivity.
Qed.

Lemma headers_app (a b : message) :
  headers (a ++ b)%list = (headers a ++ headers b)%list.
Proof.
  induction a as [|f a IH]; simpl; [reflexivity|].
  destruct f; simpl; rewrite IH; reflexivity.
Qed.

Lemma notes_map_Note (ns : list note) : notes (map Note ns) = ns.
Proof. induction ns; simpl; congruence. Qed.

Lemma headers_map_Note (ns : list note) : headers (map Note ns) = [].
Proof. induction ns; simpl; congruence. Qed.

Lemma has_note_app (n : note) (a b : message) :
  has_note n (a ++ b)%list = has_note n a || has_note n b.
Proof. unfold has_note. rewrite notes_app. apply existsb_app. Qed.

(** ** The checks *)

Lemma quote_checks_appends (t : string) :
  exists (ns : list note) (r : result unit),
    (forall m, quote_checks t m = ((m ++ map Note ns)%list, r)) /\
    forall n, In n ns ->
      n = YAML_COMMON_PARTIALLY_QUOTED_LINE_ERROR \/
      n = YAML_COMMON_UNBALANCED_QUOTES_ERROR.
Proof.
  unfold quote_checks. cbv zeta.
  destruct (Z.of_nat (List.length (Py.split ":"%char t)) >? 1);
    [|exists [], (Ok tt); split;
      [intros m; run_monad; now rewrite app_nil_r | simpl; intuition]].
  destruct (index (Py.split ":"%char t) 1) as [part|e] eqn:Hpart;
    [|exists [], (Raise e); split;
      [intros m; run_monad; now rewrite app_nil_r | simpl; intuition]].
  destruct (unbalanced_quotes (Py.strip part) t) as [u|e] eqn:Hu;
    [|exists [], (Raise e); split;
      [intros m; run_monad; rewrite Hu; now rewrite app_nil_r
      | simpl; intuition]].
  exists ((if partially_quoted (Py.strip part)
           then [YAML_COMMON_PARTIALLY_QUOTED_LINE_ERROR] else []) ++
          (if u then [YAML_COMMON_UNBALANCED_QUOTES_ERROR] else []))%list,
         (Ok tt).
  split.
  - intros m. run_monad. rewrite Hu.
    destruct (partially_quoted (Py.strip part)), u; simpl;
      rewrite <- ?app_assoc, ?app_nil_r; reflexivity.
  - intros n Hn. apply in_app_or in Hn.
    destruct (partially_quoted (Py.strip part)), u; simpl in Hn; intuition.
Qed.

(** When the unquoted-variable check fires, [checks] appends the tab note
    (if any) and the unquoted-variable note, and nothing else. *)
Lemma checks_variable (t : string) (col : Z) (m : message) :
  unquoted_variable t = true ->
  checks t col m =
  ((m ++ map Note (tab_notes t ++ [YAML_COMMON_UNQUOTED_VARIABLE_ERROR]))%list,
   Ok tt).
Proof.
  intros Hv. unfold checks, tab_notes. cbv zeta. rewrite Hv.
  destruct (Py.contains (String tab EmptyString) t); run_monad.
  - rewrite <- app_assoc. reflexivity.
  - reflexivity.
Qed.

Lemma checks_dict (t : string) (col : Z) (m : message) :
  unquoted_variable t = false ->
  dict_marker (Py.remove " "%char t) = true ->
  checks t col m =
  ((m ++ map Note (tab_notes t ++ [YAML_COMMON_DICT_ERROR]))%list, Ok tt).
Proof.
  intros Hv Hd. unfold checks, tab_notes. cbv zeta. rewrite Hv, Hd.
  destruct (Py.contains (String tab EmptyString) t); run_monad.
  - rewrite <- app_assoc. reflexivity.
  - reflexivity.
Qed.

Lemma checks_colon (t : string) (col : Z) (m : message) :
  unquoted_variable t = false ->
  dict_marker (Py.remove " "%char t) = false ->
  unquoted_colon t col = Ok true ->
  checks t col m =
  ((m ++ map Note (tab_notes t ++ [YAML_COMMON_UNQUOTED_COLON_ERROR]))%list,
   Ok tt).
Proof.
  intros Hv Hd Hc. unfold checks, tab_notes. cbv zeta. rewrite Hv, Hd, Hc.
  destruct (Py.contains (String tab EmptyString) t); run_monad.
  - rewrite <- app_assoc. reflexivity.
  - reflexivity.
Qed.

(** When none of the three fires, the quoting checks run after the tab
    check. *)
Lemma checks_else (t : string) (col : Z) (m : message) :
  unquoted_variable t = false ->
  dict_marker (Py.remove " "%char t) = false ->
  unquoted_colon t col = Ok false ->
  checks t col m = quote_checks t (m ++ map Note (tab_notes t))%list.
Proof.
  intros Hv Hd Hc. unfold checks, tab_notes. cbv zeta. rewrite Hv, Hd, Hc.
  destruct (Py.contains (String tab EmptyString) t); run_monad.
  - reflexivity.
  - rewrite app_nil_r. reflexivity.
Qed.

Lemma checks_colon_raises (t : string) (col : Z) (m : message) (e : exn) :
  unquoted_variable t = false ->
  dict_marker (Py.remove " "%char t) = false ->
  unquoted_colon t col = Raise e ->
  checks t col m = ((m ++ map Note (tab_notes t))%list, Raise e).
Proof.
  intros Hv Hd Hc. unfold checks, tab_notes. cbv zeta. rewrite Hv, Hd, Hc.
  destruct (Py.contains (String tab EmptyString) t); run_monad.
  - reflexivity.
  - rewrite app_nil_r. reflexivity.
Qed.

(** [checks] only appends heuristic notes, the same ones whatever the
    message so far. *)
Lemma checks_appends (t : string) (col : Z) :
  exists (ns : list note) (r : result unit),
    forall m, checks t col m = ((m ++ map Note ns)%list, r).
Proof.
  destruct (unquoted_variable t) eqn:Hv.
  { eexists _, _. intros m. apply checks_variable. exact Hv. }
  destruct (dict_marker (Py.remove " "%char t)) eqn:Hd.
  { eexists _, _. intros m. apply checks_dict; assumption. }
  destruct (unquoted_colon t col) as [[|]|e] eqn:Hc.
  - eexists _, _. intros m. apply checks_colon; assumption.
  - destruct (quote_checks_appends t) as (ns & r & Hq & _).
    exists (tab_notes t ++ ns)%list, r. intros m.
    rewrite checks_else by assumption. rewrite Hq.
    rewrite map_app, app_assoc. reflexivity.
  - exists (tab_notes t), (Raise e). intros m.
    apply checks_colon_raises; assumption.
Qed.

(** The colon check reads [target_line[col_number]] only inside the
    line when the column is not negative, so it cannot fail there. *)
Lemma unquoted_colon_total (t : string) (col : Z) :
  0 <= col -> exists b, unquoted_colon t col = Ok b.
Proof.
  intros Hcol. unfold unquoted_colon.
  destruct (negb (Py.len t =? 0) && (Py.len t >? 1) && (Py.len t >? col)) eqn:E.
  - apply andb_true_iff in E as [_ E].
    rewrite Z.gtb_ltb in E. apply Z.ltb_lt in E.
    unfold char_at, Py.getchar, Py.getitem.
    apply Z.leb_le in Hcol as Hb. rewrite Hb.
    destruct (nth_error (list_ascii_of_string t) (Z.to_nat col)) eqn:Hn.
    + simpl. eauto.
    + apply nth_error_None in Hn. unfold Py.len in E.
      assert (Hl : List.length (list_ascii_of_string t) = String.length t).
      { clear. induction t; simpl; congruence. }
      lia.
  - eauto.
Qed.

(** ** The classifier on a resolved context *)

Lemma has_nonspace_truthy (s : string) :
  has_nonspace s = true -> Py.truthy s = true.
Proof. destruct s; [discriminate | reflexivity]. Qed.

(** A target line returned by the resolver is not blank. *)
Lemma resolved_target_nonblank (fs : filesystem) (src : option string)
  (n : Z) (t p : string) :
  _get_error_lines_from_file fs src n = Ok (t, p) -> has_nonspace t = true.
Proof.
  intros H. destruct (get_lines_ok _ _ _ _ _ H) as (name & lines & _ & _ & Hr).
  destruct (resolve_ok _ _ _ _ Hr) as (j & Hw & _).
  destruct (walk_ok _ _ _ _ Hw) as (_ & _ & Hb & _).
  rewrite blank_spec in Hb. now apply negb_false_iff in Hb.
Qed.

Lemma explain_block (src : option string) (line col : Z) (t p : string) :
  explain src line col t p [YAML_POSITION_DETAILS src line col]
  = checks t col (block src line col t p).
Proof.
  unfold explain, block.
  destruct (Re.search Re.shorthand p); reflexivity.
Qed.

Lemma extended_error_resolved (fs : filesystem) (src : option string)
  (line col : Z) (t p : string) :
  is_sentinel src = false ->
  _get_error_lines_from_file fs src (line - 1) = Ok (t, p) ->
  _get_extended_error fs true src line col
  = except_clauses (checks t col (block src line col t p)).
Proof.
  intros Hs Hget. unfold _get_extended_error. f_equal.
  rewrite <- explain_block.
  unfold try_body. rewrite Hs. run_monad. rewrite Hget.
  rewrite (has_nonspace_truthy t (resolved_target_nonblank _ _ _ _ _ Hget)).
  reflexivity.
Qed.

Lemma extended_error_suppressed (fs : filesystem) (show : bool)
  (src : option string) (line col : Z) :
  show = false \/ is_sentinel src = true ->
  _get_extended_error fs show src line col
  = Ok [YAML_POSITION_DETAILS src line col].
Proof.
  intros H. unfold _get_extended_error, try_body. run_monad.
  destruct H as [-> | ->]; [rewrite andb_false_r|]; reflexivity.
Qed.

Lemma extended_error_unresolved (fs : filesystem) (src : option string)
  (line col : Z) (e : exn) :
  is_sentinel src = false ->
  _get_error_lines_from_file fs src (line - 1) = Raise e ->
  _get_extended_error fs true src line col
  = except_clauses ([YAML_POSITION_DETAILS src line col], Raise e).
Proof.
  intros Hs Hget. unfold _get_extended_error, try_body. rewrite Hs.
  run_monad. rewrite Hget. reflexivity.
Qed.

Lemma except_clauses_headers (m out : message) (r : result unit) :
  except_clauses (m, r) = Ok out -> headers out = headers m.
Proof.
  destruct r as [u|[]]; simpl; intros H; inversion H; subst;
    rewrite ?headers_app; simpl; rewrite ?app_nil_r; reflexivity.
Qed.

Lemma except_clauses_notes (m out : message) (r : result unit) :
  except_clauses (m, r) = Ok out -> notes out = notes m.
Proof.
  destruct r as [u|[]]; simpl; intros H; inversion H; subst;
    rewrite ?notes_app; simpl; rewrite ?app_nil_r; reflexivity.
Qed.

(** The previous line is empty unless the walk stopped above index 0,
    and the walk never stops above where it started. *)
Lemma resolved_prev_needs_line (lines : list string) (n : Z) (t p : string) :
  resolve lines n = Ok (t, p) -> Py.truthy p = true -> 1 <= n.
Proof.
  intros Hr Hp. destruct (resolve_ok _ _ _ _ Hr) as (j & Hw & [[Hj _]|[_ ->]]).
  - destruct (walk_ok _ _ _ _ Hw) as (Hle & _).
    pose proof (clamp_le lines n). lia.
  - discriminate.
Qed.

Lemma getitem_In {A : Type} (l : list A) (i : Z) (a : A) :
  Py.getitem l i = Some a -> In a l.
Proof.
  unfold Py.getitem.
  destruct (0 <=? i); [apply nth_error_In|].
  destruct (- Z.of_nat (List.length l) <=? i); [apply nth_error_In|discriminate].
Qed.

(** The walk does fail with IndexError when no line of the file has
    anything but white space. *)
Lemma walk_all_blank (lines : list string) (i : Z) :
  (forall t, In t lines -> blank t = true) -> walk lines i = Raise IndexError.
Proof.
  intros Hall. pattern i. apply (walk_induction lines); clear i.
  - intros i Hget. rewrite walk_step, Hget. reflexivity.
  - intros i t Hget Hb. apply getitem_In in Hget.
    rewrite (Hall t Hget) in Hb. discriminate.
  - intros i t Hget Hb IH. rewrite walk_step, Hget, Hb. exact IH.
Qed.

(** ** Scenarios *)

Example trailing_blank_lines :
  resolve [line "a: 1"; line "code"; line ""; line ""] 3
  = Ok (line "code", line "a: 1").
Proof. reflexivity. Qed.

Example unquoted_secret :
  _get_extended_error
    (playbook [line "- hosts: all"; line "  vars:";
               line "  password: {{ secret }}"])
    true (Some "playbook.yml") 3 11
  = Ok [YAML_POSITION_DETAILS (Some "playbook.yml") 3 11;
        OffendingLines "  vars:" "  password: {{ secret }}"
          "          ^ here";
        Note YAML_COMMON_UNQUOTED_VARIABLE_ERROR].
Proof. reflexivity. Qed.

Example missing_file :
  _get_extended_error (playbook []) true (Some "other.yml") 3 11
  = Ok [YAML_POSITION_DETAILS (Some "other.yml") 3 11; CouldNotOpen].
Proof. reflexivity. Qed.

Example all_blank_file :
  _get_extended_error (playbook [line ""; line "  "]) true
    (Some "playbook.yml") 2 1
  = Ok [YAML_POSITION_DETAILS (Some "playbook.yml") 2 1; NoLongerInFile].
Proof. reflexivity. Qed.

Example tab_and_unbalanced_quotes :
  notes_of (_get_extended_error
              (playbook [line (String tab "k: 'a' 'b'")]) true
              (Some "playbook.yml") 1 1)
  = [YAML_COMMON_LEADING_TAB_ERROR; YAML_COMMON_UNBALANCED_QUOTES_ERROR].
Proof. reflexivity. Qed.

(** ** Which exceptions can arise *)

Lemma char_at_raises (s : string) (i : Z) (e : exn) :
  char_at s i = Raise e -> e = IndexError.
Proof.
  unfold char_at. destruct (Py.getchar s i); intros H; inversion H; reflexivity.
Qed.

Lemma index_raises {A : Type} (l : list A) (i : Z) (e : exn) :
  index l i = Raise e -> e = IndexError.
Proof.
  unfold index. destruct (Py.getitem l i); intros H; inversion H; reflexivity.
Qed.

Lemma unquoted_colon_raises (t : string) (col : Z) (e : exn) :
  unquoted_colon t col = Raise e -> e = IndexError.
Proof.
  unfold unquoted_colon.
  destruct (negb (Py.len t =? 0) && (Py.len t >? 1) && (Py.len t >? col));
    [|discriminate].
  destruct (char_at t col) eqn:Hc; simpl; [discriminate|].
  intros H. inversion H; subst. eapply char_at_raises; eauto.
Qed.

Lemma unbalanced_quotes_raises (middle t : string) (e : exn) :
  unbalanced_quotes middle t = Raise e -> e = IndexError.
Proof.
  unfold unbalanced_quotes.
  destruct (Py.len middle >? 0); simpl.
  - destruct (char_at middle 0) as [c0|e0] eqn:H0; simpl.
    + destruct (is_quote c0); simpl.
      * destruct (char_at middle (-1)) as [c1|e1] eqn:H1; simpl.
        -- destruct (is_quote c1); simpl;
             [destruct (Py.count squote t >? 2)|]; discriminate.
        -- intros H. inversion H; subst. eapply char_at_raises; eauto.
      * discriminate.
    + intros H. inversion H; subst. eapply char_at_raises; eauto.
  - discriminate.
Qed.

Lemma quote_checks_raises (t : string) (m m' : message) (e : exn) :
  quote_checks t m = (m', Raise e) -> e = IndexError.
Proof.
  unfold quote_checks. cbv zeta.
  destruct (Z.of_nat (List.length (Py.split ":"%char t)) >? 1);
    [|run_monad; discriminate].
  run_monad.
  destruct (index (Py.split ":"%char t) 1) as [part|e0] eqn:Hp.
  - destruct (unbalanced_quotes (Py.strip part) t) as [u|e1] eqn:Hu.
    + destruct (partially_quoted (Py.strip part)), u; discriminate.
    + intros H. inversion H; subst. eapply unbalanced_quotes_raises; eauto.
  - intros H. inversion H; subst. eapply index_raises; eauto.
Qed.

Lemma checks_raises (t : string) (col : Z) (m m' : message) (e : exn) :
  checks t col m = (m', Raise e) -> e = IndexError.
Proof.
  destruct (unquoted_variable t) eqn:Hv.
  { rewrite checks_variable by assumption. discriminate. }
  destruct (dict_marker (Py.remove " "%char t)) eqn:Hd.
  { rewrite checks_dict by assumption. discriminate. }
  destruct (unquoted_colon t col) as [[|]|e0] eqn:Hc.
  - rewrite checks_colon by assumption. discriminate.
  - rewrite checks_else by assumption. apply quote_checks_raises.
  - rewrite (checks_colon_raises _ _ _ e0) by assumption.
    intros H. inversion H; subst. eapply unquoted_colon_raises; eauto.
Qed.

Lemma resolve_raises (lines : list string) (n : Z) (e : exn) :
  resolve lines n = Raise e -> e = IndexError.
Proof.
  unfold resolve.
  destruct (walk_total lines (clamp lines n)) as [Hw|(j & t & Hw)];
    rewrite Hw; simpl.
  - intros H. inversion H. reflexivity.
  - destruct (j >? 0); simpl; [|discriminate].
    destruct (index lines (j - 1)) eqn:Hi; simpl; [discriminate|].
    intros H. inversion H; subst. eapply index_raises; eauto.
Qed.

(** The handlers leave nothing uncaught but the decoding failure: on a
    file system where every file is openable-or-missing and decodable,
    the classifier returns a message. *)
Lemma returns_when_decodable (fs : filesystem) (show_content : bool)
  (src : option string) (line col : Z) :
  (forall name, fs name <> NotDecodable) ->
  exists out, _get_extended_error fs show_content src line col = Ok out.
Proof.
  intros Hfs.
  destruct (negb (is_sentinel src) && show_content) eqn:Hg.
  - apply andb_true_iff in Hg as [Hs ->]. apply negb_true_iff in Hs.
    destruct (_get_error_lines_from_file fs src (line - 1))
      as [[t p]|e] eqn:Hget.
    + rewrite (extended_error_resolved _ _ _ _ _ _ Hs Hget).
      destruct (checks t col (block src line col t p)) as [m' [u|e]] eqn:Hc.
      * simpl. eauto.
      * apply checks_raises in Hc. subst e. simpl. eauto.
    + rewrite (extended_error_unresolved _ _ _ _ _ Hs Hget).
      unfold _get_error_lines_from_file, open_readlines in Hget.
      destruct src as [name|]; [|inversion Hget; simpl; eauto].
      specialize (Hfs name).
      destruct (fs name) as [| |lines]; simpl in Hget.
      * inversion Hget. simpl. eauto.
      * congruence.
      * apply resolve_raises in Hget. subst e. simpl. eauto.
  - rewrite extended_error_suppressed; [eauto|].
    apply andb_false_iff in Hg as [Hg|Hg].
    + right. now apply negb_false_iff in Hg.
    + now left.
Qed.

(** * The claims *)

(** ** C1 *)

(** C1, as stated, fails: with the previous line [foo = bar] and a target
    line holding a tab, the message carries the shorthand note and the
    leading-tab note after it; the classifier did not return after the
    shorthand block. *)
Lemma shorthand_then_tab_note :
  let fs := playbook [line "foo = bar"; line (String tab "x: 1")] in
  Re.search Re.shorthand (line "foo = bar") = true /\
  _get_extended_error fs true (Some "playbook.yml") 2 1
  = Ok [YAML_POSITION_DETAILS (Some "playbook.yml") 1 5;
        OffendingLine "foo = bar" "    ^ here";
        Note YAML_AND_SHORTHAND_ERROR;
        Note YAML_COMMON_LEADING_TAB_ERROR].
Proof. split; reflexivity. Qed.

(** C1, amended: when [prev_line] matches the shorthand pattern, the
    header is rewritten to [line_number - 1] and to the offset of the
    equals sign plus one, the right-trimmed [prev_line] follows with a
    caret line at that offset (which does hold an equals sign), then the
    shorthand note; only the block of the two offending lines is skipped.
    The tab check and the chain of checks still run on [target_line], and
    the notes [ns] they append (the same they append to any message) come
    after the shorthand note. *)
Theorem shorthand_path (fs : filesystem) (src : option string)
  (line_number col_number : Z) (target_line prev_line : string) :
  is_sentinel src = false ->
  _get_error_lines_from_file fs src (line_number - 1)
  = Ok (target_line, prev_line) ->
  Re.search Re.shorthand prev_line = true ->
  let error_position := Py.find "=" (Py.rstrip prev_line) in
  let shorthand_block :=
    [YAML_POSITION_DETAILS src (line_number - 1) (error_position + 1);
     OffendingLine (Py.rstrip prev_line)
       (Py.spaces error_position ++ "^ here");
     Note YAML_AND_SHORTHAND_ERROR] in
  Py.getchar (Py.rstrip prev_line) error_position = Some "="%char /\
  exists (ns : list note) (r : result unit),
    (forall m, checks target_line col_number m = ((m ++ map Note ns)%list, r)) /\
    _get_extended_error fs true src line_number col_number
    = except_clauses ((shorthand_block ++ map Note ns)%list, r).
Proof.
  intros Hs Hget Hre. cbv zeta. split.
  - apply find_char_getchar. apply shorthand_find_equals. exact Hre.
  - destruct (checks_appends target_line col_number) as (ns & r & Hc).
    exists ns, r. split; [exact Hc|].
    rewrite (extended_error_resolved _ _ _ _ _ _ Hs Hget).
    unfold block. rewrite Hre. rewrite Hc. reflexivity.
Qed.

Lemma shorthand_path_witness :
  let fs := playbook [line "foo = bar"; line (String tab "x: 1")] in
  (is_sentinel (Some "playbook.yml") = false /\
   _get_error_lines_from_file fs (Some "playbook.yml") (2 - 1)
   = Ok (line (String tab "x: 1"), line "foo = bar") /\
   Re.search Re.shorthand (line "foo = bar") = true) /\
  Py.getchar "foo = bar" 4 = Some "="%char /\
  exists (ns : list note) (r : result unit),
    (forall m, checks (line (String tab "x: 1")) 1 m
               = ((m ++ map Note ns)%list, r)) /\
    _get_extended_error fs true (Some "playbook.yml") 2 1
    = except_clauses
        (([YAML_POSITION_DETAILS (Some "playbook.yml") 1 5;
           OffendingLine "foo = bar" "    ^ here";
           Note YAML_AND_SHORTHAND_ERROR] ++ map Note ns)%list, r).
Proof.
  split; [repeat split; reflexivity|].
  apply (shorthand_path
           (playbook [line "foo = bar"; line (String tab "x: 1")])
           (Some "playbook.yml") 2 1
           (line (String tab "x: 1")) (line "foo = bar"));
    reflexivity.
Defined.

(** ** C2 *)

(** C2, as stated, fails: on the target line [k: 'a {{ x }}] the
    quoting checks alone would append the partially-quoted note, but the
    unquoted-variable check fires and the message of this non-shorthand
    request carries the unquoted-variable note only. *)
Lemma quote_checks_skipped_after_variable :
  let t := line "k: 'a {{ x }}" in
  let fs := playbook [t] in
  unquoted_variable t = true /\
  quote_checks t [] = ([Note YAML_COMMON_PARTIALLY_QUOTED_LINE_ERROR], Ok tt) /\
  _get_extended_error fs true (Some "playbook.yml") 1 1
  = Ok [YAML_POSITION_DETAILS (Some "playbook.yml") 1 1;
        OffendingLines "" "k: 'a {{ x }}" "^ here";
        Note YAML_COMMON_UNQUOTED_VARIABLE_ERROR].
Proof. repeat split; reflexivity. Qed.

(** C2, amended: the quoting checks are the final [else] of the chain.
    When one of the unquoted-variable, dict-marker and unquoted-colon
    checks fires, [checks] appends the tab note (if any) and that one
    note, and neither quoting note; when none fires, [checks] is the tab
    check followed by the quoting checks. *)
Theorem quote_checks_are_the_else (target_line : string) (col_number : Z)
  (fired : bool) (m : message) :
  chain_fires target_line col_number = Ok fired ->
  if fired then
    exists n,
      checks target_line col_number m
      = ((m ++ map Note (tab_notes target_line ++ [n]))%list, Ok tt) /\
      n <> YAML_COMMON_PARTIALLY_QUOTED_LINE_ERROR /\
      n <> YAML_COMMON_UNBALANCED_QUOTES_ERROR
  else
    checks target_line col_number m
    = quote_checks target_line (m ++ map Note (tab_notes target_line))%list.
Proof.
  unfold chain_fires. intros H.
  destruct (unquoted_variable target_line) eqn:Hv.
  { inversion H; subst. eexists. split; [now apply checks_variable|].
    split; discriminate. }
  destruct (dict_marker (Py.remove " "%char target_line)) eqn:Hd.
  { inversion H; subst. eexists. split; [now apply checks_dict|].
    split; discriminate. }
  destruct fired.
  - eexists. split; [now apply checks_colon|]. split; discriminate.
  - now apply checks_else.
Qed.

Lemma quote_checks_are_the_else_witness :
  let t := line "k: 'a {{ x }}" in
  chain_fires t 1 = Ok true /\
  exists n,
    checks t 1 [] = (map Note (tab_notes t ++ [n])%list, Ok tt) /\
    n <> YAML_COMMON_PARTIALLY_QUOTED_LINE_ERROR /\
    n <> YAML_COMMON_UNBALANCED_QUOTES_ERROR.
Proof.
  split; [reflexivity|].
  apply (quote_checks_are_the_else (line "k: 'a {{ x }}") 1 true []).
  reflexivity.
Defined.

(** ** C3 *)

(** C3 holds of the documented intent but not of the code. Take the
    target line [msg: x QaQ Qb], where Q stands for the double quote
    character. Its second segment starts with [x] and ends with [b], so
    it has no outer quote characters, yet the line counts three double
    quotes and the unbalanced-quotes note is appended: the last disjunct
    stands alone, outside the conjunction. *)
Lemma unbalanced_note_without_outer_quotes :
  let t := line ("msg: x " ++ q ++ "a" ++ q ++ " " ++ q ++ "b") in
  let middle := Py.strip (nth 1 (Py.split ":"%char t) EmptyString) in
  let fs := playbook [t] in
  Py.first middle = Some "x"%char /\
  Py.last middle = Some "b"%char /\
  Py.count dquote t = 3 /\
  unbalanced_quotes middle t = Ok true /\
  _get_extended_error fs true (Some "playbook.yml") 1 1
  = Ok [YAML_POSITION_DETAILS (Some "playbook.yml") 1 1;
        OffendingLines "" (Py.rstrip t) "^ here";
        Note YAML_COMMON_UNBALANCED_QUOTES_ERROR].
Proof. repeat split; reflexivity. Qed.

(** ** C4 *)

(** C4 holds of the documented intent but not of the code. In a file
    whose first line is blank and whose second line is [code], a request
    for the first line finds index 0 blank, steps to index -1, which
    Python reads as the last line, and returns [code] with an empty
    previous line; no IndexError is raised and the message has no
    fallback sentence. *)
Lemma walk_wraps_to_end_of_file :
  let lines := [line ""; line "code"] in
  let fs := playbook lines in
  clamp lines 0 = 0 /\
  Py.getitem lines 0 = Some (line "") /\
  blank (line "") = true /\
  walk lines 0 = Ok (-1, line "code") /\
  _get_error_lines_from_file fs (Some "playbook.yml") 0
  = Ok (line "code", EmptyString) /\
  _get_extended_error fs true (Some "playbook.yml") 1 1
  = Ok [YAML_POSITION_DETAILS (Some "playbook.yml") 1 1;
        OffendingLines "" "code" "^ here"].
Proof. repeat split; reflexivity. Qed.

(** ** C5 *)

(** C5 holds of the documented intent but not of the code. When the file
    cannot be decoded, [readlines] raises UnicodeDecodeError, which is
    none of IOError, TypeError and IndexError: it leaves
    [_get_extended_error]. *)
Lemma decode_error_escapes :
  _get_extended_error undecodable true (Some "playbook.yml") 1 1
  = Raise UnicodeDecodeError.
Proof. reflexivity. Qed.

(** ** C6 *)

(** C6: when [show_content] is false or the source is one of the two
    sentinels, the message is the positional header alone, whatever the
    file system holds: two runs that differ only in the file system give
    the same message, and the rendered text is the header's. *)
Theorem suppressed_content_is_header_only (fs1 fs2 : filesystem)
  (show_content : bool) (src : option string) (line_number col_number : Z)
  (yaml_strings : note -> string) :
  show_content = false \/ is_sentinel src = true ->
  _get_extended_error fs1 show_content src line_number col_number
  = Ok [YAML_POSITION_DETAILS src line_number col_number] /\
  _get_extended_error fs2 show_content src line_number col_number
  = _get_extended_error fs1 show_content src line_number col_number /\
  (forall out,
     _get_extended_error fs1 show_content src line_number col_number = Ok out ->
     render yaml_strings out
     = render_fragment yaml_strings
         (YAML_POSITION_DETAILS src line_number col_number)).
Proof.
  intros H.
  rewrite (extended_error_suppressed fs1 _ _ _ _ H).
  rewrite (extended_error_suppressed fs2 _ _ _ _ H).
  repeat split. intros out Hout. inversion Hout; subst.
  change (render yaml_strings [YAML_POSITION_DETAILS src line_number col_number])
    with (render_fragment yaml_strings
            (YAML_POSITION_DETAILS src line_number col_number) ++ EmptyString).
  apply string_app_empty.
Qed.

Lemma suppressed_content_is_header_only_witness :
  let fs1 := playbook [line "password: hunter2"] in
  let fs2 := undecodable in
  let header := YAML_POSITION_DETAILS (Some "playbook.yml") 1 11 in
  (false = false \/ is_sentinel (Some "playbook.yml") = true) /\
  _get_extended_error fs1 false (Some "playbook.yml") 1 11 = Ok [header] /\
  _get_extended_error fs2 false (Some "playbook.yml") 1 11
  = _get_extended_error fs1 false (Some "playbook.yml") 1 11 /\
  (forall out,
     _get_extended_error fs1 false (Some "playbook.yml") 1 11 = Ok out ->
     render (fun _ => EmptyString) out
     = render_fragment (fun _ => EmptyString) header).
Proof.
  split; [left; reflexivity|].
  apply (suppressed_content_is_header_only
           (playbook [line "password: hunter2"]) undecodable false
           (Some "playbook.yml") 1 11 (fun _ => EmptyString)).
  left. reflexivity.
Defined.

(** ** C7 *)

(** C7: when the unquoted-variable check fires on the resolved target
    line, the classifier returns a message that carries neither the
    dict-marker note nor the unquoted-colon note, whatever else the line
    holds and on the shorthand path too; when content is shown the
    message does carry the unquoted-variable note. *)
Theorem variable_note_excludes_dict_and_colon (fs : filesystem)
  (show_content : bool) (src : option string) (line_number col_number : Z)
  (target_line prev_line : string) :
  _get_error_lines_from_file fs src (line_number - 1)
  = Ok (target_line, prev_line) ->
  unquoted_variable target_line = true ->
  exists out,
    _get_extended_error fs show_content src line_number col_number = Ok out /\
    has_note YAML_COMMON_DICT_ERROR out = false /\
    has_note YAML_COMMON_UNQUOTED_COLON_ERROR out = false /\
    (show_content = true -> is_sentinel src = false ->
     has_note YAML_COMMON_UNQUOTED_VARIABLE_ERROR out = true).
Proof.
  intros Hget Hv.
  destruct show_content;
    [destruct (is_sentinel src) eqn:Hs|].
  - eexists. split; [apply extended_error_suppressed; now right|].
    repeat split; try reflexivity. discriminate.
  - rewrite (extended_error_resolved _ _ _ _ _ _ Hs Hget).
    rewrite (checks_variable _ _ _ Hv). simpl except_clauses.
    eexists. split; [reflexivity|].
    rewrite !has_note_app. unfold has_note at 2 4 6.
    rewrite notes_map_Note. unfold block, tab_notes.
    destruct (Re.search Re.shorthand prev_line),
             (Py.contains (String tab EmptyString) target_line);
      repeat split; reflexivity.
  - eexists. split; [apply extended_error_suppressed; now left|].
    repeat split; try reflexivity. discriminate.
Qed.

Lemma variable_note_excludes_dict_and_colon_witness :
  let t := line "a:{{ x }}: y" in
  let fs := playbook [t] in
  (_get_error_lines_from_file fs (Some "playbook.yml") (1 - 1)
   = Ok (t, EmptyString) /\
   unquoted_variable t = true /\
   dict_marker (Py.remove " "%char t) = true /\
   Py.getchar t 1 = Some ":"%char /\ Py.count ":"%char t = 2) /\
  exists out,
    _get_extended_error fs true (Some "playbook.yml") 1 1 = Ok out /\
    has_note YAML_COMMON_DICT_ERROR out = false /\
    has_note YAML_COMMON_UNQUOTED_COLON_ERROR out = false /\
    (true = true -> is_sentinel (Some "playbook.yml") = false ->
     has_note YAML_COMMON_UNQUOTED_VARIABLE_ERROR out = true).
Proof.
  split; [repeat split; reflexivity|].
  apply (variable_note_excludes_dict_and_colon
           (playbook [line "a:{{ x }}: y"]) true (Some "playbook.yml") 1 1
           (line "a:{{ x }}: y") EmptyString); reflexivity.
Defined.

(** ** C8 *)

(** C8: for a readable file and a line number at or beyond the number of
    lines, the index is clamped to the number of lines minus one and the
    resolver gives what it gives for that last index; every index the
    walk reads from there, and the index it stops at, are below the
    number of lines. *)
Theorem resolver_clamps_to_last_line (fs : filesystem) (name : string)
  (lines : list string) (line_number : Z) :
  fs name = Lines lines ->
  Z.of_nat (List.length lines) <= line_number ->
  let last := Z.of_nat (List.length lines) - 1 in
  clamp lines line_number = last /\
  _get_error_lines_from_file fs (Some name) line_number
  = _get_error_lines_from_file fs (Some name) last /\
  (forall j, reads lines (clamp lines line_number) j ->
             j < Z.of_nat (List.length lines)) /\
  (forall j t, walk lines (clamp lines line_number) = Ok (j, t) ->
               j < Z.of_nat (List.length lines) /\
               Py.getitem lines j = Some t).
Proof.
  intros Hfs Hn last.
  pose proof (clamp_beyond lines line_number Hn) as Hc.
  split; [exact Hc|]. split; [|split].
  - unfold _get_error_lines_from_file, open_readlines. rewrite Hfs. simpl.
    unfold resolve. rewrite Hc. unfold last. rewrite clamp_last. reflexivity.
  - intros j Hr. apply reads_le in Hr.
    pose proof (clamp_lt lines line_number). lia.
  - intros j t Hw. destruct (walk_ok _ _ _ _ Hw) as (Hle & Hj & _).
    pose proof (clamp_lt lines line_number). split; [lia | exact Hj].
Qed.

Lemma resolver_clamps_to_last_line_witness :
  let lines := [line "a: 1"; line "code"; line ""; line "  "] in
  let fs := playbook lines in
  (fs "playbook.yml" = Lines lines /\ Z.of_nat (List.length lines) <= 9) /\
  clamp lines 9 = 3 /\
  _get_error_lines_from_file fs (Some "playbook.yml") 9
  = _get_error_lines_from_file fs (Some "playbook.yml") 3 /\
  (forall j, reads lines (clamp lines 9) j -> j < 4) /\
  (forall j t, walk lines (clamp lines 9) = Ok (j, t) ->
               j < 4 /\ Py.getitem lines j = Some t).
Proof.
  split; [split; [reflexivity | simpl; lia]|].
  apply (resolver_clamps_to_last_line
           (playbook [line "a: 1"; line "code"; line ""; line "  "])
           "playbook.yml"
           [line "a: 1"; line "code"; line ""; line "  "] 9).
  - reflexivity.
  - simpl. lia.
Defined.

(** ** C9 *)

(** C9: for a reported line and column that are both at least 1, a
    message that is returned has exactly one positional header, and the
    line and column it prints are at least 1; on the shorthand path the
    rewritten line [line_number - 1] is at least 1 because a previous
    line exists only below a target index above 0, and the rewritten
    column is the offset of an equals sign plus one. *)
Theorem header_positions_are_positive (fs : filesystem) (show_content : bool)
  (src : option string) (line_number col_number : Z) (out : message) :
  1 <= line_number -> 1 <= col_number ->
  _get_extended_error fs show_content src line_number col_number = Ok out ->
  exists l c, headers out = [(l, c)] /\ 1 <= l /\ 1 <= c.
Proof.
  intros Hl Hc Hout.
  destruct (negb (is_sentinel src) && show_content) eqn:Hg.
  - apply andb_true_iff in Hg as [Hs ->]. apply negb_true_iff in Hs.
    destruct (_get_error_lines_from_file fs src (line_number - 1))
      as [[t p]|e] eqn:Hget.
    + rewrite (extended_error_resolved _ _ _ _ _ _ Hs Hget) in Hout.
      destruct (checks_appends t col_number) as (ns & r & Hck).
      rewrite Hck in Hout. apply except_clauses_headers in Hout.
      rewrite headers_app, headers_map_Note, app_nil_r in Hout.
      rewrite Hout. unfold block.
      destruct (Re.search Re.shorthand p) eqn:Hre; simpl.
      * exists (line_number - 1), (Py.find "=" (Py.rstrip p) + 1).
        split; [reflexivity|].
        pose proof (shorthand_find_equals p Hre).
        destruct (get_lines_ok _ _ _ _ _ Hget) as (name & lines & _ & _ & Hr).
        assert (Hp : Py.truthy p = true).
        { destruct p; [discriminate Hre | reflexivity]. }
        pose proof (resolved_prev_needs_line _ _ _ _ Hr Hp). lia.
      * exists line_number, col_number. auto.
    + rewrite (extended_error_unresolved _ _ _ _ _ Hs Hget) in Hout.
      apply except_clauses_headers in Hout. rewrite Hout. simpl.
      exists line_number, col_number. auto.
  - rewrite extended_error_suppressed in Hout.
    + inversion Hout; subst. simpl. exists line_number, col_number. auto.
    + apply andb_false_iff in Hg as [Hg|Hg].
      * right. now apply negb_false_iff in Hg.
      * now left.
Qed.

Lemma header_positions_are_positive_witness :
  let fs := playbook [line "a: 1"; line "  foo = bar"; line "  b: 2"] in
  let out := [YAML_POSITION_DETAILS (Some "playbook.yml") 2 7;
              OffendingLine "  foo = bar" "      ^ here";
              Note YAML_AND_SHORTHAND_ERROR] in
  (1 <= 3 /\ 1 <= 1 /\
   _get_extended_error fs true (Some "playbook.yml") 3 1 = Ok out) /\
  exists l c, headers out = [(l, c)] /\ 1 <= l /\ 1 <= c.
Proof.
  split; [repeat split; try lia; reflexivity|].
  apply (header_positions_are_positive
           (playbook [line "a: 1"; line "  foo = bar"; line "  b: 2"])
           true (Some "playbook.yml") 3 1); try lia; reflexivity.
Defined.

(** ** C10 *)

(** C10: whenever [_get_error_lines_from_file] returns, for any line
    number and any file system, the target line is not blank: stripping
    it leaves a non-empty string, and it holds a character that is not
    white space. *)
Theorem resolved_target_line_is_not_blank (fs : filesystem)
  (file_name : option string) (line_number : Z) (target_line prev_line : string) :
  _get_error_lines_from_file fs file_name line_number
  = Ok (target_line, prev_line) ->
  Py.truthy (Py.strip target_line) = true /\
  exists c, In c (list_ascii_of_string target_line) /\ Py.isspace c = false.
Proof.
  intros H. pose proof (resolved_target_nonblank _ _ _ _ _ H) as Hn.
  split.
  - pose proof (blank_spec target_line) as Hb. unfold blank in Hb.
    rewrite Hn in Hb. simpl in Hb. now apply negb_false_iff in Hb.
  - now apply has_nonspace_In.
Qed.

Lemma resolved_target_line_is_not_blank_witness :
  let fs := playbook [line "a: 1"; line "code"; line ""; line "  "] in
  _get_error_lines_from_file fs (Some "playbook.yml") (-1)
  = Ok (line "code", EmptyString) /\
  Py.truthy (Py.strip (line "code")) = true /\
  exists c, In c (list_ascii_of_string (line "code")) /\ Py.isspace c = false.
Proof.
  split; [reflexivity|].
  apply (resolved_target_line_is_not_blank
           (playbook [line "a: 1"; line "code"; line ""; line "  "])
           (Some "playbook.yml") (-1) (line "code") EmptyString).
  reflexivity.
Defined.

(** * Further properties *)

(** ** The resolver *)

Lemma getitem_valid {A : Type} (l : list A) (i : Z) :
  - Z.of_nat (List.length l) <= i < Z.of_nat (List.length l) ->
  exists a, Py.getitem l i = Some a.
Proof.
  intros H. unfold Py.getitem.
  destruct (0 <=? i) eqn:E0.
  - apply Z.leb_le in E0.
    destruct (nth_error l (Z.to_nat i)) eqn:Hn; [eauto|].
    apply nth_error_None in Hn. lia.
  - apply Z.leb_gt in E0.
    destruct (- Z.of_nat (List.length l) <=? i) eqn:E1.
    + destruct (nth_error l (Z.to_nat (Z.of_nat (List.length l) + i))) eqn:Hn;
        [eauto|].
      apply nth_error_None in Hn. lia.
    + apply Z.leb_gt in E1. lia.
Qed.


(** X1: a line number inside the file whose line is not blank resolves
    to that very line, with the line above it as previous line, or the
    empty string when it is the first line. *)
Theorem resolve_in_range (lines : list string) (line_number : Z)
  (target_line : string) :
  0 <= line_number ->
  Py.getitem lines line_number = Some target_line ->
  blank target_line = false ->
  exists prev_line,
    resolve lines line_number = Ok (target_line, prev_line) /\
    (line_number = 0 -> prev_line = EmptyString) /\
    (0 < line_number -> Py.getitem lines (line_number - 1) = Some prev_line).
Proof.
  intros H0 Hget Hb.
  pose proof (getitem_Some_bounds _ _ _ Hget) as Hbound.
  assert (Hc : clamp lines line_number = line_number).
  { unfold clamp.
    destruct (line_number >=? Z.of_nat (List.length lines)) eqn:E;
      [|reflexivity].
    rewrite Z.geb_leb in E. apply Z.leb_le in E. lia. }
  unfold resolve. rewrite Hc, walk_step, Hget, Hb. simpl.
  destruct (line_number >? 0) eqn:Hpos.
  - rewrite Z.gtb_ltb in Hpos. apply Z.ltb_lt in Hpos.
    destruct (getitem_valid lines (line_number - 1)) as [p Hp]; [lia|].
    exists p. unfold index. rewrite Hp. simpl.
    split; [reflexivity|]. split; [lia | intros _; reflexivity].
  - rewrite Z.gtb_ltb in Hpos. apply Z.ltb_ge in Hpos.
    exists EmptyString. simpl.
    split; [reflexivity|]. split; [intros _; reflexivity | lia].
Qed.

Lemma resolve_in_range_witness :
  let lines := [line "a: 1"; line "b: 2"; line ""] in
  (0 <= 1 /\ Py.getitem lines 1 = Some (line "b: 2") /\
   blank (line "b: 2") = false) /\
  exists prev_line,
    resolve lines 1 = Ok (line "b: 2", prev_line) /\
    (1 = 0 -> prev_line = EmptyString) /\
    (0 < 1 -> Py.getitem lines (1 - 1) = Some prev_line).
Proof.
  split; [repeat split; try lia; reflexivity|].
  apply (resolve_in_range [line "a: 1"; line "b: 2"; line ""] 1 (line "b: 2"));
    [lia | reflexivity | reflexivity].
Defined.



(** X3: when no line of the file has anything but white space (an empty
    file included), every request that shows content gets the header
    followed by the sentence that the line is no longer in the file,
    whatever the line and column. *)
Theorem blank_file_is_no_longer_in_file (fs : filesystem) (name : string)
  (lines : list string) (line_number col_number : Z) :
  fs name = Lines lines ->
  is_sentinel (Some name) = false ->
  (forall t, In t lines -> blank t = true) ->
  _get_extended_error fs true (Some name) line_number col_number
  = Ok [YAML_POSITION_DETAILS (Some name) line_number col_number;
        NoLongerInFile].
Proof.
  intros Hfs Hs Hall.
  rewrite (extended_error_unresolved fs (Some name) line_number col_number
             IndexError Hs); [reflexivity|].
  unfold _get_error_lines_from_file, open_readlines. rewrite Hfs. simpl.
  unfold resolve. rewrite (walk_all_blank _ _ Hall). reflexivity.
Qed.

Lemma blank_file_is_no_longer_in_file_witness :
  let lines := [line ""; line "  "] in
  (playbook lines "playbook.yml" = Lines lines /\
   is_sentinel (Some "playbook.yml") = false /\
   (forall t, In t lines -> blank t = true)) /\
  _get_extended_error (playbook lines) true (Some "playbook.yml") 5 3
  = Ok [YAML_POSITION_DETAILS (Some "playbook.yml") 5 3; NoLongerInFile].
Proof.
  assert (Hall : forall t, In t [line ""; line "  "] -> blank t = true).
  { intros t [<-|[<-|[]]]; reflexivity. }
  split; [repeat split; try reflexivity; exact Hall|].
  apply (blank_file_is_no_longer_in_file
           (playbook [line ""; line "  "]) "playbook.yml"
           [line ""; line "  "] 5 3); [reflexivity | reflexivity | exact Hall].
Defined.

(** ** The classifier *)

Lemma length_list_ascii (s : string) :
  List.length (list_ascii_of_string s) = String.length s.
Proof. induction s; simpl; congruence. Qed.

Lemma char_at_valid (s : string) (i : Z) :
  - Py.len s <= i < Py.len s -> exists c, char_at s i = Ok c.
Proof.
  intros H. unfold char_at, Py.getchar.
  destruct (getitem_valid (list_ascii_of_string s) i) as [c Hc].
  - rewrite length_list_ascii. exact H.
  - rewrite Hc. eauto.
Qed.

(** The quote test reads [middle[0]] and [middle[-1]] only when
    [middle] is not empty: it always returns. *)
Lemma unbalanced_quotes_total (middle t : string) :
  exists b, unbalanced_quotes middle t = Ok b.
Proof.
  unfold unbalanced_quotes.
  destruct (Py.len middle >? 0) eqn:E; simpl.
  - rewrite Z.gtb_ltb in E. apply Z.ltb_lt in E.
    destruct (char_at_valid middle 0) as [c0 H0]; [lia|].
    destruct (char_at_valid middle (-1)) as [c1 H1]; [lia|].
    rewrite H0. simpl. destruct (is_quote c0); simpl.
    + rewrite H1. simpl. destruct (is_quote c1); simpl.
      * destruct (Py.count squote t >? 2); simpl; eauto.
      * eauto.
    + eauto.
  - eauto.
Qed.

Lemma quote_checks_shape (t : string) :
  exists ns,
    (forall m, quote_checks t m = ((m ++ map Note ns)%list, Ok tt)) /\
    In ns [[]; [YAML_COMMON_PARTIALLY_QUOTED_LINE_ERROR];
           [YAML_COMMON_UNBALANCED_QUOTES_ERROR];
           [YAML_COMMON_PARTIALLY_QUOTED_LINE_ERROR;
            YAML_COMMON_UNBALANCED_QUOTES_ERROR]].
Proof.
  unfold quote_checks. cbv zeta.
  destruct (Z.of_nat (List.length (Py.split ":"%char t)) >? 1) eqn:E.
  - rewrite Z.gtb_ltb in E. apply Z.ltb_lt in E.
    destruct (getitem_valid (Py.split ":"%char t) 1) as [part Hp]; [lia|].
    destruct (unbalanced_quotes_total (Py.strip part) t) as [u Hu].
    exists ((if partially_quoted (Py.strip part)
             then [YAML_COMMON_PARTIALLY_QUOTED_LINE_ERROR] else []) ++
            (if u then [YAML_COMMON_UNBALANCED_QUOTES_ERROR] else []))%list.
    split.
    + intros m. run_monad. unfold index. rewrite Hp. simpl. rewrite Hu.
      destruct (partially_quoted (Py.strip part)), u; simpl;
        rewrite <- ?app_assoc, ?app_nil_r; reflexivity.
    + destruct (partially_quoted (Py.strip part)), u; simpl; auto.
  - exists []. split; [|simpl; auto].
    intros m. run_monad. now rewrite app_nil_r.
Qed.

(** [checks] appends the tab note, if any, then one of [chain_tails];
    it can only fail with IndexError, and not at all for a column that
    is not negative. *)
Lemma checks_shape (t : string) (col : Z) :
  exists (tail : list note) (r : result unit),
    (forall m, checks t col m
               = ((m ++ map Note (tab_notes t ++ tail))%list, r)) /\
    In tail chain_tails /\
    (r = Ok tt \/ r = Raise IndexError) /\
    (0 <= col -> r = Ok tt).
Proof.
  destruct (unquoted_variable t) eqn:Hv.
  { exists [YAML_COMMON_UNQUOTED_VARIABLE_ERROR], (Ok tt).
    split; [intros m; now apply checks_variable|].
    unfold chain_tails. simpl. auto 10. }
  destruct (dict_marker (Py.remove " "%char t)) eqn:Hd.
  { exists [YAML_COMMON_DICT_ERROR], (Ok tt).
    split; [intros m; now apply checks_dict|].
    unfold chain_tails. simpl. auto 10. }
  destruct (unquoted_colon t col) as [[|]|e] eqn:Hc.
  - exists [YAML_COMMON_UNQUOTED_COLON_ERROR], (Ok tt).
    split; [intros m; now apply checks_colon|].
    unfold chain_tails. simpl. auto 10.
  - destruct (quote_checks_shape t) as (ns & Hq & Hin).
    exists ns, (Ok tt). split.
    + intros m. rewrite checks_else by assumption. rewrite Hq.
      rewrite map_app, app_assoc. reflexivity.
    + split; [|auto].
      unfold chain_tails. simpl in *. intuition.
  - exists [], (Raise e). split.
    + intros m. rewrite app_nil_r. now apply checks_colon_raises.
    + apply unquoted_colon_raises in Hc as He. subst e.
      split; [unfold chain_tails; simpl; auto 10|].
      split; [auto|]. intros H0.
      destruct (unquoted_colon_total t col H0) as [b Hb]. congruence.
Qed.

(** X4: when the resolver returns and the column is not negative, the
    classifier never adds a fallback sentence: the message is the header
    with the offending block (rewritten on the shorthand path), followed
    by heuristic notes only. *)
Theorem resolved_context_has_no_fallback (fs : filesystem)
  (src : option string) (line_number col_number : Z)
  (target_line prev_line : string) :
  is_sentinel src = false ->
  _get_error_lines_from_file fs src (line_number - 1)
  = Ok (target_line, prev_line) ->
  0 <= col_number ->
  exists ns,
    _get_extended_error fs true src line_number col_number
    = Ok (block src line_number col_number target_line prev_line
          ++ map Note ns)%list.
Proof.
  intros Hs Hget Hcol.
  destruct (checks_shape target_line col_number)
    as (tail & r & Hck & _ & _ & Hr).
  rewrite (extended_error_resolved _ _ _ _ _ _ Hs Hget).
  rewrite Hck, (Hr Hcol). simpl. eauto.
Qed.

Lemma resolved_context_has_no_fallback_witness :
  let fs := playbook [line "a: 1"; line "b: c: d"] in
  (is_sentinel (Some "playbook.yml") = false /\
   _get_error_lines_from_file fs (Some "playbook.yml") (2 - 1)
   = Ok (line "b: c: d", line "a: 1") /\
   0 <= 4) /\
  exists ns,
    _get_extended_error fs true (Some "playbook.yml") 2 4
    = Ok (block (Some "playbook.yml") 2 4 (line "b: c: d") (line "a: 1")
          ++ map Note ns)%list.
Proof.
  split; [repeat split; try lia; reflexivity|].
  apply (resolved_context_has_no_fallback
           (playbook [line "a: 1"; line "b: c: d"])
           (Some "playbook.yml") 2 4 (line "b: c: d") (line "a: 1"));
    [reflexivity | reflexivity | lia].
Defined.

(** X5: the tab check is independent of every other check: whenever the
    resolver returns, the classifier returns a message, and that message
    carries the leading-tab note exactly when the target line holds a tab
    character, on the shorthand path, whichever chained check fires, and
    even when the colon check fails on a negative column. *)
Theorem tab_note_iff_tab (fs : filesystem) (src : option string)
  (line_number col_number : Z) (target_line prev_line : string) :
  is_sentinel src = false ->
  _get_error_lines_from_file fs src (line_number - 1)
  = Ok (target_line, prev_line) ->
  exists out,
    _get_extended_error fs true src line_number col_number = Ok out /\
    has_note YAML_COMMON_LEADING_TAB_ERROR out
    = Py.contains (String tab EmptyString) target_line.
Proof.
  intros Hs Hget.
  destruct (checks_shape target_line col_number)
    as (tail & r & Hck & Htail & Hr & _).
  rewrite (extended_error_resolved _ _ _ _ _ _ Hs Hget). rewrite Hck.
  assert (Hn : has_note YAML_COMMON_LEADING_TAB_ERROR
                 (block src line_number col_number target_line prev_line
                  ++ map Note (tab_notes target_line ++ tail))%list
               = Py.contains (String tab EmptyString) target_line).
  { rewrite has_note_app. unfold has_note at 2. rewrite notes_map_Note.
    unfold block, tab_notes, chain_tails in *. simpl in Htail.
    destruct (Re.search Re.shorthand prev_line),
             (Py.contains (String tab EmptyString) target_line);
      intuition; subst; reflexivity. }
  destruct Hr as [-> | ->]; simpl.
  - eexists. split; [reflexivity | exact Hn].
  - eexists. split; [reflexivity|].
    rewrite has_note_app, Hn. apply orb_false_r.
Qed.

Lemma tab_note_iff_tab_witness :
  let t := line (String tab "k: 'a' 'b'") in
  let fs := playbook [t] in
  (is_sentinel (Some "playbook.yml") = false /\
   _get_error_lines_from_file fs (Some "playbook.yml") (1 - 1)
   = Ok (t, EmptyString)) /\
  exists out,
    _get_extended_error fs true (Some "playbook.yml") 1 (-40) = Ok out /\
    has_note YAML_COMMON_LEADING_TAB_ERROR out
    = Py.contains (String tab EmptyString) t.
Proof.
  split; [split; reflexivity|].
  apply (tab_note_iff_tab
           (playbook [line (String tab "k: 'a' 'b'")])
           (Some "playbook.yml") 1 (-40)
           (line (String tab "k: 'a' 'b'")) EmptyString); reflexivity.
Defined.

(** X6: the notes of a returned message come in one fixed order, each at
    most once: shorthand, leading tab, unquoted variable, dict marker,
    unquoted colon, partially quoted, unbalanced quotes. *)
Theorem notes_follow_fixed_order (fs : filesystem) (show_content : bool)
  (src : option string) (line_number col_number : Z) (out : message) :
  _get_extended_error fs show_content src line_number col_number = Ok out ->
  subseq (notes out) note_order = true.
Proof.
  intros Hout.
  destruct (negb (is_sentinel src) && show_content) eqn:Hg.
  - apply andb_true_iff in Hg as [Hs ->]. apply negb_true_iff in Hs.
    destruct (_get_error_lines_from_file fs src (line_number - 1))
      as [[t p]|e] eqn:Hget.
    + rewrite (extended_error_resolved _ _ _ _ _ _ Hs Hget) in Hout.
      destruct (checks_shape t col_number) as (tail & r & Hck & Htail & _).
      rewrite Hck in Hout. apply except_clauses_notes in Hout.
      rewrite Hout, notes_app, notes_map_Note.
      unfold block, tab_notes, chain_tails in *. simpl in Htail.
      destruct (Re.search Re.shorthand p),
               (Py.contains (String tab EmptyString) t);
        intuition; subst; reflexivity.
    + rewrite (extended_error_unresolved _ _ _ _ _ Hs Hget) in Hout.
      apply except_clauses_notes in Hout. rewrite Hout. reflexivity.
  - rewrite extended_error_suppressed in Hout.
    + inversion Hout; subst. reflexivity.
    + apply andb_false_iff in Hg as [Hg|Hg].
      * right. now apply negb_false_iff in Hg.
      * now left.
Qed.

Lemma notes_follow_fixed_order_witness :
  let fs := playbook [line "foo = bar"; line (String tab "k: 'a' 'b'")] in
  let out := [YAML_POSITION_DETAILS (Some "playbook.yml") 1 5;
              OffendingLine "foo = bar" "    ^ here";
              Note YAML_AND_SHORTHAND_ERROR;
              Note YAML_COMMON_LEADING_TAB_ERROR;
              Note YAML_COMMON_UNBALANCED_QUOTES_ERROR] in
  _get_extended_error fs true (Some "playbook.yml") 2 1 = Ok out /\
  subseq (notes out) note_order = true.
Proof.
  split; [reflexivity|].
  apply (notes_follow_fixed_order
           (playbook [line "foo = bar"; line (String tab "k: 'a' 'b'")])
           true (Some "playbook.yml") 2 1).
  reflexivity.
Defined.

Lemma getchar_after_spaces (n : Z) (c : ascii) (s : string) :
  Py.getchar (Py.spaces n ++ String c s) (Z.max 0 n) = Some c.
Proof.
  unfold Py.getchar, Py.getitem, Py.spaces.
  assert (H0 : (0 <=? Z.max 0 n) = true) by (apply Z.leb_le; lia).
  rewrite H0.
  replace (Z.to_nat (Z.max 0 n)) with (Z.to_nat n) by lia.
  induction (Z.to_nat n) as [|k IH]; simpl; [reflexivity | exact IH].
Qed.

Lemma In_block_or_tail (f : fragment) (b : message) (ns : list note)
  (r : result unit) (out : message) :
  except_clauses ((b ++ map Note ns)%list, r) = Ok out ->
  In f out ->
  In f b \/ (exists n, f = Note n) \/ f = CouldNotOpen \/ f = NoLongerInFile.
Proof.
  intros Hout Hin.
  assert (Hcore : In f (b ++ map Note ns)%list ->
                  In f b \/ (exists n, f = Note n) \/
                  f = CouldNotOpen \/ f = NoLongerInFile).
  { intros H. apply in_app_or in H as [H|H]; [auto|].
    apply in_map_iff in H as (n & <- & _). right. left. eauto. }
  destruct r as [u|[]]; simpl in Hout; inversion Hout; subst; auto;
    apply in_app_or in Hin as [Hin|[<-|[]]]; auto.
Qed.

(** X7: in a returned message the caret sits where the code means it.
    In the block of the two offending lines the caret is at offset
    [col_number - 1] of the caret line (offset 0 when that is negative);
    in the shorthand block it is at an offset where the line shown above
    it holds an equals sign. *)
Theorem caret_points_at_the_position (fs : filesystem) (show_content : bool)
  (src : option string) (line_number col_number : Z) (out : message) :
  _get_extended_error fs show_content src line_number col_number = Ok out ->
  (forall pl tl arrow,
      In (OffendingLines pl tl arrow) out ->
      Py.getchar arrow (Z.max 0 (col_number - 1)) = Some "^"%char) /\
  (forall l arrow,
      In (OffendingLine l arrow) out ->
      exists k, 0 <= k /\ Py.getchar arrow k = Some "^"%char /\
                Py.getchar l k = Some "="%char).
Proof.
  intros Hout.
  assert (Hnone : forall f, In f [YAML_POSITION_DETAILS src line_number col_number]
                  \/ (exists n, f = Note n) \/ f = CouldNotOpen
                  \/ f = NoLongerInFile ->
                  (forall pl tl a, f <> OffendingLines pl tl a) /\
                  (forall l a, f <> OffendingLine l a)).
  { intros f [[<-|[]]|[[n ->]|[->| ->]]]; split; intros; discriminate. }
  destruct (negb (is_sentinel src) && show_content) eqn:Hg.
  - apply andb_true_iff in Hg as [Hs ->]. apply negb_true_iff in Hs.
    destruct (_get_error_lines_from_file fs src (line_number - 1))
      as [[t p]|e] eqn:Hget.
    + rewrite (extended_error_resolved _ _ _ _ _ _ Hs Hget) in Hout.
      destruct (checks_shape t col_number) as (tail & r & Hck & _).
      rewrite Hck in Hout.
      pose proof (fun f => In_block_or_tail f _ _ _ _ Hout) as Hin.
      unfold block in Hin.
      destruct (Re.search Re.shorthand p) eqn:Hre.
      * split.
        -- intros pl tl a Ha. apply Hin in Ha.
           simpl in Ha. intuition; try discriminate.
           all: match goal with H : exists _, _ |- _ =>
                  destruct H; discriminate end.
        -- intros l a Ha. apply Hin in Ha.
           pose proof (shorthand_find_equals p Hre) as Hpos.
           simpl in Ha.
           destruct Ha as [[Ha|[Ha|[Ha|[]]]]|[[n Ha]|[Ha|Ha]]];
             try discriminate.
           inversion Ha; subst. exists (Py.find "=" (Py.rstrip p)).
           split; [exact Hpos|]. split.
           ++ rewrite <- (Z.max_r 0 (Py.find "=" (Py.rstrip p))) at 2 by lia.
              apply getchar_after_spaces.
           ++ apply find_char_getchar. exact Hpos.
      * split.
        -- intros pl tl a Ha. apply Hin in Ha. simpl in Ha.
           destruct Ha as [[Ha|[Ha|[]]]|[[n Ha]|[Ha|Ha]]]; try discriminate.
           inversion Ha; subst. apply getchar_after_spaces.
        -- intros l a Ha. apply Hin in Ha. simpl in Ha.
           destruct Ha as [[Ha|[Ha|[]]]|[[n Ha]|[Ha|Ha]]]; discriminate.
    + rewrite (extended_error_unresolved _ _ _ _ _ Hs Hget) in Hout.
      pose proof (fun f => In_block_or_tail f
                    [YAML_POSITION_DETAILS src line_number col_number]
                    [] (Raise e) out Hout) as Hin.
      split.
      * intros pl tl a Ha. apply Hin, Hnone in Ha. destruct Ha as [Ha _].
        exfalso. eapply Ha. reflexivity.
      * intros l a Ha. apply Hin, Hnone in Ha. destruct Ha as [_ Ha].
        exfalso. eapply Ha. reflexivity.
  - rewrite extended_error_suppressed in Hout.
    + inversion Hout; subst. split.
      * intros pl tl a [Ha|[]]. discriminate.
      * intros l a [Ha|[]]. discriminate.
    + apply andb_false_iff in Hg as [Hg|Hg].
      * right. now apply negb_false_iff in Hg.
      * now left.
Qed.

Lemma caret_points_at_the_position_witness :
  let fs := playbook [line "a: 1"; line "  foo = bar"; line "  b: 2"] in
  let out := [YAML_POSITION_DETAILS (Some "playbook.yml") 2 7;
              OffendingLine "  foo = bar" "      ^ here";
              Note YAML_AND_SHORTHAND_ERROR] in
  _get_extended_error fs true (Some "playbook.yml") 3 1 = Ok out /\
  (forall pl tl arrow,
      In (OffendingLines pl tl arrow) out ->
      Py.getchar arrow (Z.max 0 (1 - 1)) = Some "^"%char) /\
  (forall l arrow,
      In (OffendingLine l arrow) out ->
      exists k, 0 <= k /\ Py.getchar arrow k = Some "^"%char /\
                Py.getchar l k = Some "="%char).
Proof.
  split; [reflexivity|].
  apply (caret_points_at_the_position
           (playbook [line "a: 1"; line "  foo = bar"; line "  b: 2"])
           true (Some "playbook.yml") 3 1).
  reflexivity.
Defined.

(** ** The shorthand detector *)

Lemma many_split (p : ascii -> bool) (k : string -> bool) (s : string) :
  Re.many p k s = true ->
  exists u v, s = u ++ v /\ all_chars p u = true /\ k v = true.
Proof.
  induction s as [|c s IH]; simpl; intros H.
  - exists EmptyString, EmptyString. auto.
  - apply orb_true_iff in H as [H|H].
    + apply andb_true_iff in H as [Hc H].
      destruct (IH H) as (u & v & -> & Hu & Hk).
      exists (String c u), v. repeat split; auto.
      unfold all_chars in *. simpl. now rewrite Hc, Hu.
    + exists EmptyString, (String c s). auto.
Qed.

Lemma many_complete (p : ascii -> bool) (k : string -> bool) (u v : string) :
  all_chars p u = true -> k v = true -> Re.many p k (u ++ v) = true.
Proof.
  unfold all_chars. intros Hu Hk.
  induction u as [|c u IH]; simpl in *.
  - destruct v; simpl; [exact Hk | now rewrite Hk, orb_true_r].
  - apply andb_true_iff in Hu as [Hc Hu]. now rewrite Hc, (IH Hu).
Qed.

Lemma opt_plus_split (p : ascii -> bool) (k : string -> bool) (s : string) :
  Re.matches (Re.Opt (Re.Plus p)) k s = true ->
  exists u v, s = u ++ v /\ all_chars p u = true /\ k v = true.
Proof.
  simpl. intros H. apply orb_true_iff in H as [H|H].
  - destruct s as [|c s]; [discriminate|].
    apply andb_true_iff in H as [Hc H].
    destruct (many_split _ _ _ H) as (u & v & -> & Hu & Hk).
    exists (String c u), v. repeat split; auto.
    unfold all_chars in *. simpl. now rewrite Hc, Hu.
  - exists EmptyString, s. auto.
Qed.

Lemma opt_plus_complete (p : ascii -> bool) (k : string -> bool)
  (u v : string) :
  all_chars p u = true -> k v = true ->
  Re.matches (Re.Opt (Re.Plus p)) k (u ++ v) = true.
Proof.
  intros Hu Hk. simpl. destruct u as [|c u]; simpl.
  - rewrite Hk. apply orb_true_r.
  - unfold all_chars in Hu. simpl in Hu.
    apply andb_true_iff in Hu as [Hc Hu].
    rewrite Hc, (many_complete p k u v Hu Hk). reflexivity.
Qed.

Lemma search_complete (r : Re.regex) (u v : string) :
  Re.matches r (fun _ => true) v = true -> Re.search r (u ++ v) = true.
Proof.
  intros H. induction u as [|c u IH]; simpl.
  - destruct v; simpl; rewrite H; reflexivity.
  - rewrite IH. apply orb_true_r.
Qed.

Lemma many_anything (p : ascii -> bool) (s : string) :
  Re.many p (fun _ => true) s = true.
Proof. destruct s; simpl; [reflexivity | apply orb_true_r]. Qed.

(** X8: the shorthand detector accepts exactly the lines that hold,
    somewhere, a word character followed by word characters, then white
    space (possibly none), an equals sign, white space (possibly none)
    and a character that is a word character, a slash or a dash. *)
Theorem shorthand_detects_exactly_key_equals_value (s : string) :
  Re.search Re.shorthand s = true <->
  exists u w ws a b d v,
    s = u ++ String w (ws ++ a ++ String "="%char (b ++ String d v)) /\
    Py.isword w = true /\ all_chars Py.isword ws = true /\
    all_chars Py.isspace a = true /\ all_chars Py.isspace b = true /\
    Re.word_slash_dash d = true.
Proof.
  split.
  - intros H.
    destruct (search_suffix _ _ H) as (u & s0 & -> & H0).
    unfold Re.shorthand in H0. cbn [Re.matches] in H0.
    destruct s0 as [|w s1]; [discriminate|].
    apply andb_true_iff in H0 as [Hw H0].
    destruct (many_split _ _ _ H0) as (ws & s2 & -> & Hws & H1).
    destruct (opt_plus_split Py.isspace _ s2 H1) as (a & s3 & -> & Ha & H2).
    cbn [Re.matches] in H2.
    destruct s3 as [|e s4]; [discriminate|].
    apply andb_true_iff in H2 as [He H2].
    unfold Re.lit in He. apply Ascii.eqb_eq in He. subst e.
    destruct (opt_plus_split Py.isspace _ s4 H2) as (b & s5 & -> & Hb & H3).
    simpl in H3. destruct s5 as [|d v]; [discriminate|].
    apply andb_true_iff in H3 as [Hd _].
    exists u, w, ws, a, b, d, v. repeat split; auto.
  - intros (u & w & ws & a & b & d & v & -> & Hw & Hws & Ha & Hb & Hd).
    apply search_complete.
    unfold Re.shorthand. cbn [Re.matches]. rewrite Hw. simpl andb.
    apply many_complete; [exact Hws|].
    apply opt_plus_complete; [exact Ha|].
    change (Re.lit "="%char "="%char &&
            Re.matches (Re.Opt (Re.Plus Py.isspace))
              (Re.matches (Re.Plus Re.word_slash_dash) (fun _ => true))
              (b ++ String d v) = true).
    unfold Re.lit at 1. rewrite Ascii.eqb_refl. simpl andb.
    apply opt_plus_complete; [exact Hb|].
    simpl. rewrite Hd. apply many_anything.
Qed.

(** ** What leaves [_get_extended_error] *)



(** ** [AnsibleError.message] *)

Lemma returned_message_starts_with_header (fs : filesystem)
  (show_content : bool) (src : option string) (line_number col_number : Z)
  (out : message) :
  _get_extended_error fs show_content src line_number col_number = Ok out ->
  exists s l c rest, out = YAML_POSITION_DETAILS s l c :: rest.
Proof.
  intros Hout.
  destruct (negb (is_sentinel src) && show_content) eqn:Hg.
  - apply andb_true_iff in Hg as [Hs ->]. apply negb_true_iff in Hs.
    destruct (_get_error_lines_from_file fs src (line_number - 1))
      as [[t p]|e] eqn:Hget.
    + rewrite (extended_error_resolved _ _ _ _ _ _ Hs Hget) in Hout.
      destruct (checks_shape t col_number) as (tail & r & Hck & _).
      rewrite Hck in Hout. unfold block in Hout.
      destruct (Re.search Re.shorthand p);
        destruct r as [u|[]]; simpl in Hout; inversion Hout; eauto.
    + rewrite (extended_error_unresolved _ _ _ _ _ Hs Hget) in Hout.
      destruct e; simpl in Hout; inversion Hout; eauto.
  - rewrite extended_error_suppressed in Hout.
    + inversion Hout; eauto.
    + apply andb_false_iff in Hg as [Hg|Hg].
      * right. now apply negb_false_iff in Hg.
      * now left.
Qed.

Lemma render_header_truthy (yaml_strings : note -> string)
  (s : option string) (l c : Z) (rest : message) :
  Py.truthy (render yaml_strings (YAML_POSITION_DETAILS s l c :: rest)) = true.
Proof. reflexivity. Qed.

(** X10: for an error attached to a YAML object, [message] is the plain
    message when the extended error is suppressed and otherwise the plain
    message, an empty line and the text of the extended error: that text
    is never empty, so the first half of the guard never decides.
    [orig_exc] plays no part, and an exception that leaves
    [_get_extended_error] leaves [message] too, suppressed or not. *)
Theorem message_of_yaml_error (yaml_strings : note -> string)
  (fs : filesystem) (self : AnsibleError)
  (src : option string) (line_number col_number : Z) :
  obj self = Some (src, line_number, col_number) ->
  AnsibleError_message yaml_strings fs self =
  match _get_extended_error fs (_show_content self) src line_number col_number
  with
  | Ok pieces =>
      Ok (if _suppress_extended_error self then _message self
          else _message self ++ (nl ++ nl ++ render yaml_strings pieces))
  | Raise e => Raise e
  end.
Proof.
  intros Hobj. unfold AnsibleError_message. rewrite Hobj.
  destruct (_get_extended_error fs (_show_content self) src line_number
              col_number) as [pieces|e] eqn:Hout; simpl; [|reflexivity].
  destruct (returned_message_starts_with_header _ _ _ _ _ _ Hout)
    as (s & l & c & rest & ->).
  rewrite render_header_truthy.
  destruct (_suppress_extended_error self); reflexivity.
Qed.

Lemma message_of_yaml_error_witness :
  let self := {| _message := "Syntax Error while loading YAML.";
                 obj := Some (Some "playbook.yml", 1, 1);
                 _show_content := true;
                 _suppress_extended_error := true;
                 orig_exc := Some "mapping values are not allowed here" |} in
  obj self = Some (Some "playbook.yml", 1, 1) /\
  AnsibleError_message (fun _ => EmptyString) undecodable self =
  match _get_extended_error undecodable (_show_content self)
          (Some "playbook.yml") 1 1
  with
  | Ok pieces =>
      Ok (if _suppress_extended_error self then _message self
          else _message self
               ++ (nl ++ nl ++ render (fun _ => EmptyString) pieces))
  | Raise e => Raise e
  end.
Proof.
  split; [reflexivity|].
  apply (message_of_yaml_error (fun _ => EmptyString) undecodable
           {| _message := "Syntax Error while loading YAML.";
              obj := Some (Some "playbook.yml", 1, 1);
              _show_content := true;
              _suppress_extended_error := true;
              orig_exc := Some "mapping values are not allowed here" |}
           (Some "playbook.yml") 1 1).
  reflexivity.
Defined.

(** X11: with [show_content] false, [message] of an error attached to a
    YAML object does not depend on the file system and never raises: it
    is the plain message, followed, unless suppressed, by an empty line
    and the positional header alone. *)
Theorem message_without_content (yaml_strings : note -> string)
  (fs : filesystem) (self : AnsibleError)
  (src : option string) (line_number col_number : Z) :
  obj self = Some (src, line_number, col_number) ->
  _show_content self = false ->
  AnsibleError_message yaml_strings fs self =
  Ok (if _suppress_extended_error self then _message self
      else _message self
           ++ (nl ++ nl ++
               render_fragment yaml_strings
                 (YAML_POSITION_DETAILS src line_number col_number))).
Proof.
  intros Hobj Hshow. unfold AnsibleError_message. rewrite Hobj, Hshow.
  rewrite extended_error_suppressed by (now left). unfold rbind.
  rewrite render_header_truthy.
  destruct (_suppress_extended_error self); [reflexivity|].
  change (render yaml_strings
            [YAML_POSITION_DETAILS src line_number col_number])
    with (render_fragment yaml_strings
            (YAML_POSITION_DETAILS src line_number col_number)
          ++ EmptyString).
  rewrite string_app_empty. reflexivity.
Qed.

Lemma message_without_content_witness :
  let self := {| _message := "Decryption failed";
                 obj := Some (Some "vault.yml", 3, 1);
                 _show_content := false;
                 _suppress_extended_error := false;
                 orig_exc := None |} in
  (obj self = Some (Some "vault.yml", 3, 1) /\ _show_content self = false) /\
  AnsibleError_message (fun _ => EmptyString) undecodable self =
  Ok (_message self
      ++ (nl ++ nl ++
          render_fragment (fun _ => EmptyString)
            (YAML_POSITION_DETAILS (Some "vault.yml") 3 1))).
Proof.
  split; [split; reflexivity|].
  apply (message_without_content (fun _ => EmptyString) undecodable
           {| _message := "Decryption failed";
              obj := Some (Some "vault.yml", 3, 1);
              _show_content := false;
              _suppress_extended_error := false;
              orig_exc := None |}
           (Some "vault.yml") 3 1); reflexivity.
Defined.

(** ** [deduplicate_list] *)

Section Helpers_facts.

Variable A : Type.
Variable eq_dec : forall x y : A, {x = y} + {x <> y}.

Lemma mem_In (x : A) (seen : list A) : mem A eq_dec x seen = true <-> In x seen.
Proof.
  unfold mem. destruct (in_dec eq_dec x seen); split; auto; discriminate.
Qed.

Lemma mem_not_In (x : A) (seen : list A) :
  mem A eq_dec x seen = false <-> ~ In x seen.
Proof.
  unfold mem. destruct (in_dec eq_dec x seen); split; auto; try discriminate.
  intros H. contradiction.
Qed.

Lemma dedup_from_In (seen l : list A) (x : A) :
  In x (dedup_from A eq_dec seen l) <-> In x l /\ ~ In x seen.
Proof.
  revert seen. induction l as [|y l IH]; intros seen; simpl.
  - tauto.
  - destruct (mem A eq_dec y seen) eqn:Hm; simpl.
    + apply mem_In in Hm. rewrite IH. split.
      * tauto.
      * intros [[->|H] Hn]; [contradiction | tauto].
    + apply mem_not_In in Hm. rewrite IH. simpl. split.
      * intros [->|[H Hn]]; [tauto|]. split; [tauto|]. tauto.
      * intros [[->|H] Hn]; [tauto|].
        destruct (eq_dec y x) as [->|Hne]; [tauto|]. right. tauto.
Qed.

Lemma dedup_from_NoDup (seen l : list A) : NoDup (dedup_from A eq_dec seen l).
Proof.
  revert seen. induction l as [|y l IH]; intros seen; simpl.
  - constructor.
  - destruct (mem A eq_dec y seen); simpl; [apply IH|].
    constructor; [|apply IH].
    rewrite dedup_from_In. simpl. tauto.
Qed.

(** Only membership in [seen] matters. *)
Lemma dedup_from_ext (s1 s2 l : list A) :
  (forall x, In x s1 <-> In x s2) ->
  dedup_from A eq_dec s1 l = dedup_from A eq_dec s2 l.
Proof.
  revert s1 s2. induction l as [|y l IH]; intros s1 s2 Hs; simpl;
    [reflexivity|].
  assert (Hm : mem A eq_dec y s1 = mem A eq_dec y s2).
  { destruct (mem A eq_dec y s2) eqn:E.
    - apply mem_In. apply Hs. now apply mem_In.
    - apply mem_not_In. rewrite Hs. now apply mem_not_In. }
  rewrite Hm. destruct (mem A eq_dec y s2); simpl.
  - apply IH. exact Hs.
  - f_equal. apply IH. intros x. simpl. rewrite Hs. tauto.
Qed.

Lemma dedup_from_cons_seen (x : A) (seen l : list A) :
  dedup_from A eq_dec (x :: seen) l
  = dedup_from A eq_dec seen
      (filter (fun y => if eq_dec y x then false else true) l).
Proof.
  revert seen. induction l as [|y l IH]; intros seen; simpl; [reflexivity|].
  destruct (eq_dec y x) as [->|Hne].
  - assert (Hm : mem A eq_dec x (x :: seen) = true)
      by (apply mem_In; now left).
    rewrite Hm. simpl. apply IH.
  - assert (Hm : mem A eq_dec y (x :: seen) = mem A eq_dec y seen).
    { destruct (mem A eq_dec y seen) eqn:E.
      - apply mem_In. right. now apply mem_In.
      - apply mem_not_In. apply mem_not_In in E. simpl.
        intros [H|H]; [now apply Hne | contradiction]. }
    rewrite Hm. simpl. destruct (mem A eq_dec y seen); simpl.
    + apply IH.
    + f_equal. rewrite <- IH. apply dedup_from_ext.
      intros z. simpl. tauto.
Qed.

Lemma dedup_from_fixed (seen l : list A) :
  NoDup l -> (forall x, In x l -> ~ In x seen) ->
  dedup_from A eq_dec seen l = l.
Proof.
  revert seen. induction l as [|y l IH]; intros seen Hnd Hdis; simpl;
    [reflexivity|].
  inversion Hnd as [|? ? Hy Hl]; subst.
  assert (Hm : mem A eq_dec y seen = false).
  { apply mem_not_In. apply Hdis. now left. }
  rewrite Hm. simpl. f_equal. apply IH; [exact Hl|].
  intros x Hx [<-|Hs]; [contradiction|].
  apply (Hdis x); [now right | exact Hs].
Qed.

(** X12: the result of [deduplicate_list] holds no element twice, and
    holds exactly the elements of the list it was given. *)
Theorem deduplicate_list_members (l : list A) :
  NoDup (deduplicate_list A eq_dec l) /\
  forall x, In x (deduplicate_list A eq_dec l) <-> In x l.
Proof.
  unfold deduplicate_list. split; [apply dedup_from_NoDup|].
  intros x. rewrite dedup_from_In. simpl. tauto.
Qed.

(** X13: elements come out in the order in which each is first found:
    the head of the list stays at the head, followed by the deduplicated
    rest of the list with every later copy of the head left out. *)
Theorem deduplicate_list_first_occurrence (x : A) (l : list A) :
  deduplicate_list A eq_dec (x :: l)
  = x :: deduplicate_list A eq_dec
           (filter (fun y => if eq_dec y x then false else true) l).
Proof.
  unfold deduplicate_list. simpl. f_equal. apply dedup_from_cons_seen.
Qed.

(** X14: a list without duplicates is returned as it is. *)
Theorem deduplicate_list_fixed (l : list A) :
  NoDup l -> deduplicate_list A eq_dec l = l.
Proof.
  intros H. apply dedup_from_fixed; [exact H|]. intros x _ [].
Qed.

End Helpers_facts.

Lemma deduplicate_list_fixed_witness :
  NoDup [3; 1; 2]%Z /\ deduplicate_list Z Z.eq_dec [3; 1; 2] = [3; 1; 2].
Proof.
  assert (H : NoDup [3; 1; 2]%Z).
  { repeat constructor; simpl; intuition; discriminate. }
  split; [exact H|].
  apply (deduplicate_list_fixed Z Z.eq_dec [3; 1; 2] H).
Defined.

(** ** [is_subpath] *)

Lemma split_not_nil (c : ascii) (s : string) : Py.split c s <> [].
Proof.
  destruct s as [|a s]; simpl; [discriminate|].
  destruct (Ascii.eqb a c); [discriminate|].
  destruct (Py.split c s); discriminate.
Qed.

Lemma join_split (c : ascii) (s : string) : str_join c (Py.split c s) = s.
Proof.
  induction s as [|a s IH]; simpl; [reflexivity|].
  destruct (Ascii.eqb a c) eqn:E.
  - apply Ascii.eqb_eq in E. subst a.
    pose proof (split_not_nil c s) as Hn.
    destruct (Py.split c s) as [|x l]; [contradiction|].
    simpl in *. rewrite IH. reflexivity.
  - pose proof (split_not_nil c s) as Hn.
    destruct (Py.split c s) as [|x l]; [contradiction|].
    destruct l as [|y l]; simpl in *; rewrite <- IH; reflexivity.
Qed.

Lemma split_app_sep (c : ascii) (a b : string) :
  Py.split c (a ++ String c b) = (Py.split c a ++ Py.split c b)%list.
Proof.
  induction a as [|x a IH]; simpl.
  - rewrite Ascii.eqb_refl. reflexivity.
  - destruct (Ascii.eqb x c); [rewrite IH; reflexivity|].
    rewrite IH. pose proof (split_not_nil c a) as Hn.
    destruct (Py.split c a); [contradiction | reflexivity].
Qed.

Lemma str_join_app (c : ascii) (p tail : list string) :
  p <> [] -> tail <> [] ->
  str_join c (p ++ tail) = str_join c p ++ String c (str_join c tail).
Proof.
  intros Hp Ht. induction p as [|x p IH]; [contradiction|].
  destruct p as [|y p].
  - simpl. destruct tail; [contradiction | reflexivity].
  - change (str_join c ((x :: y :: p) ++ tail))
      with (x ++ String c (str_join c ((y :: p) ++ tail))).
    rewrite IH by discriminate.
    change (str_join c (x :: y :: p)) with (x ++ String c (str_join c (y :: p))).
    rewrite string_app_assoc. reflexivity.
Qed.

Lemma list_eqb_eq (a b : list string) : list_eqb a b = true <-> a = b.
Proof.
  revert b. induction a as [|x a IH]; destruct b as [|y b]; simpl;
    try (split; [discriminate | discriminate]); [tauto|].
  rewrite andb_true_iff, String.eqb_eq, IH. split.
  - intros [-> ->]. reflexivity.
  - intros H. inversion H. auto.
Qed.

Lemma firstn_length_prefix {A : Type} (p l : list A) :
  firstn (List.length p) l = p <-> exists tail, l = (p ++ tail)%list.
Proof.
  split.
  - intros H. exists (skipn (List.length p) l).
    rewrite <- H at 1. symmetry. apply firstn_skipn.
  - intros [tail ->]. rewrite firstn_app, Nat.sub_diag, firstn_all. simpl.
    apply app_nil_r.
Qed.

(** Comparing the leading components of two paths amounts to this on
    the paths themselves. *)
Lemma leading_components (a b : string) :
  list_eqb (firstn (List.length (Py.split sep b)) (Py.split sep a))
           (Py.split sep b) = true <->
  a = b \/ exists rest, a = b ++ String sep rest.
Proof.
  rewrite list_eqb_eq, firstn_length_prefix. split.
  - intros [tail Ht].
    pose proof (join_split sep a) as Ha. rewrite Ht in Ha.
    destruct tail as [|t ts].
    + left. rewrite app_nil_r, join_split in Ha. auto.
    + right. rewrite str_join_app in Ha.
      * rewrite join_split in Ha. eauto.
      * apply split_not_nil.
      * discriminate.
  - intros [->|[rest ->]].
    + exists []. symmetry. apply app_nil_r.
    + exists (Py.split sep rest). apply split_app_sep.
Qed.

(** X15: [is_subpath] holds exactly when the canonical child path is the
    canonical parent path, or is the parent path followed by a separator
    and anything: whole components are compared, not characters. *)
Theorem is_subpath_iff (os : os_path) (child parent : string) (real : bool) :
  is_subpath os child parent real = true <->
  abs_path os real child = abs_path os real parent \/
  exists rest,
    abs_path os real child = abs_path os real parent ++ String sep rest.
Proof. unfold is_subpath. apply leading_components. Qed.

(** X16: nothing directly under the root is a subpath of the root: when
    the canonical parent is the separator alone and the canonical child
    is the separator followed by a name that does not start with a
    separator, [is_subpath] is false (the root splits into two empty
    components). *)
Theorem is_subpath_of_root_is_false (os : os_path) (child parent : string)
  (real : bool) (c : ascii) (rest : string) :
  abs_path os real parent = String sep EmptyString ->
  abs_path os real child = String sep (String c rest) ->
  c <> sep ->
  is_subpath os child parent real = false.
Proof.
  intros Hp Hc Hne. unfold is_subpath. cbv zeta.
  destruct (list_eqb _ _) eqn:E; [|reflexivity].
  apply leading_components in E. rewrite Hp, Hc in E.
  destruct E as [E|[r E]]; simpl in E; inversion E. contradiction.
Qed.

Lemma is_subpath_of_root_is_false_witness :
  let os := {| getcwd := "/"; isfile := fun _ => false;
               dirname := fun p => p; expandvars := fun p => p;
               expanduser := fun p => p; isabs := fun _ => true;
               join := fun a b => a ++ b; realpath := fun p => p;
               normpath := fun p => p |} in
  (abs_path os false "/" = String sep EmptyString /\
   abs_path os false "/etc" = String sep (String "e" "tc") /\
   "e"%char <> sep) /\
  is_subpath os "/etc" "/" false = false.
Proof.
  split; [repeat split; try reflexivity; discriminate|].
  apply (is_subpath_of_root_is_false
           {| getcwd := "/"; isfile := fun _ => false;
              dirname := fun p => p; expandvars := fun p => p;
              expanduser := fun p => p; isabs := fun _ => true;
              join := fun a b => a ++ b; realpath := fun p => p;
              normpath := fun p => p |}
           "/etc" "/" false "e"%char "tc");
    [reflexivity | reflexivity | discriminate].
Defined.

(** X17: [is_subpath] is transitive: a subpath of a subpath of a
    directory is a subpath of that directory. *)
Theorem is_subpath_transitive (os : os_path) (a b c : string) (real : bool) :
  is_subpath os a b real = true ->
  is_subpath os b c real = true ->
  is_subpath os a c real = true.
Proof.
  unfold is_subpath. cbv zeta. rewrite !leading_components.
  intros [Hab|[r1 Hab]] [Hbc|[r2 Hbc]]; rewrite Hab, Hbc.
  - left. reflexivity.
  - right. exists r2. reflexivity.
  - right. exists r1. reflexivity.
  - right. exists (r2 ++ String sep r1).
    rewrite string_app_assoc. reflexivity.
Qed.

Lemma is_subpath_transitive_witness :
  let os := {| getcwd := "/"; isfile := fun _ => false;
               dirname := fun p => p; expandvars := fun p => p;
               expanduser := fun p => p; isabs := fun _ => true;
               join := fun a b => a ++ b; realpath := fun p => p;
               normpath := fun p => p |} in
  (is_subpath os "/srv/www/site" "/srv/www" false = true /\
   is_subpath os "/srv/www" "/srv" false = true) /\
  is_subpath os "/srv/www/site" "/srv" false = true.
Proof.
  split; [split; reflexivity|].
  apply (is_subpath_transitive
           {| getcwd := "/"; isfile := fun _ => false;
              dirname := fun p => p; expandvars := fun p => p;
              expanduser := fun p => p; isabs := fun _ => true;
              join := fun a b => a ++ b; realpath := fun p => p;
              normpath := fun p => p |}
           "/srv/www/site" "/srv/www" "/srv" false); reflexivity.
Defined.

(** ** [Singleton] *)

Section Singleton_facts.

Variables (args instance : Type).
Variable construct : args -> option instance.




End Singleton_facts.


(** ** The unquoted-colon note *)

Lemma unquoted_colon_true (t : string) (col : Z) :
  unquoted_colon t col = Ok true ->
  Py.getchar t col = Some ":"%char /\ 1 < Py.count ":"%char t /\
  col < Py.len t.
Proof.
  unfold unquoted_colon.
  destruct (negb (Py.len t =? 0) && (Py.len t >? 1) && (Py.len t >? col))
    eqn:E; [|discriminate].
  apply andb_true_iff in E as [_ E].
  rewrite Z.gtb_ltb in E. apply Z.ltb_lt in E.
  unfold char_at. destruct (Py.getchar t col) as [c|]; simpl; [|discriminate].
  intros H.
  assert (Hb : Ascii.eqb c ":"%char && (Py.count ":"%char t >? 1) = true)
    by congruence.
  clear H. apply andb_true_iff in Hb as [Hc Hn].
  apply Ascii.eqb_eq in Hc. subst c.
  rewrite Z.gtb_ltb in Hn. apply Z.ltb_lt in Hn.
  split; [reflexivity|]. split; [exact Hn | exact E].
Qed.

(** X19: a message carries the unquoted-colon note only when the target
    line holds a colon at index [col_number] (counted from 0, so one
    place to the right of the caret), holds more than one colon, and did
    not trigger the unquoted-variable check. *)
Theorem colon_note_means_colon_at_column (fs : filesystem)
  (src : option string) (line_number col_number : Z)
  (target_line prev_line : string) (out : message) :
  is_sentinel src = false ->
  _get_error_lines_from_file fs src (line_number - 1)
  = Ok (target_line, prev_line) ->
  _get_extended_error fs true src line_number col_number = Ok out ->
  has_note YAML_COMMON_UNQUOTED_COLON_ERROR out = true ->
  Py.getchar target_line col_number = Some ":"%char /\
  1 < Py.count ":"%char target_line /\
  unquoted_variable target_line = false.
Proof.
  intros Hs Hget Hout Hnote.
  rewrite (extended_error_resolved _ _ _ _ _ _ Hs Hget) in Hout.
  assert (Hblock : has_note YAML_COMMON_UNQUOTED_COLON_ERROR
                     (block src line_number col_number target_line prev_line)
                   = false).
  { unfold block. destruct (Re.search Re.shorthand prev_line); reflexivity. }
  assert (Htab : existsb (note_eqb YAML_COMMON_UNQUOTED_COLON_ERROR)
                   (tab_notes target_line) = false).
  { unfold tab_notes.
    destruct (Py.contains (String tab EmptyString) target_line); reflexivity. }
  assert (Hnotes : forall m r ns,
             except_clauses ((m ++ map Note ns)%list, r) = Ok out ->
             has_note YAML_COMMON_UNQUOTED_COLON_ERROR m = false ->
             existsb (note_eqb YAML_COMMON_UNQUOTED_COLON_ERROR) ns = true).
  { intros m r ns H Hm. apply except_clauses_notes in H.
    unfold has_note in Hnote, Hm. rewrite H, notes_app, notes_map_Note in Hnote.
    rewrite existsb_app, Hm in Hnote. exact Hnote. }
  destruct (unquoted_variable target_line) eqn:Hv.
  { rewrite (checks_variable _ _ _ Hv) in Hout.
    apply Hnotes in Hout; [|exact Hblock].
    rewrite existsb_app, Htab in Hout. discriminate. }
  destruct (dict_marker (Py.remove " "%char target_line)) eqn:Hd.
  { rewrite (checks_dict _ _ _ Hv Hd) in Hout.
    apply Hnotes in Hout; [|exact Hblock].
    rewrite existsb_app, Htab in Hout. discriminate. }
  destruct (unquoted_colon target_line col_number) as [[|]|e] eqn:Hc.
  - destruct (unquoted_colon_true _ _ Hc) as (H1 & H2 & _). auto.
  - rewrite (checks_else _ _ _ Hv Hd Hc) in Hout.
    destruct (quote_checks_shape target_line) as (ns & Hq & Hin).
    rewrite Hq, <- app_assoc, <- map_app in Hout.
    apply Hnotes in Hout; [|exact Hblock].
    rewrite existsb_app, Htab in Hout. simpl in Hin, Hout.
    intuition; subst; discriminate.
  - rewrite (checks_colon_raises _ _ _ e Hv Hd Hc) in Hout.
    apply Hnotes in Hout; [|exact Hblock].
    rewrite Htab in Hout. discriminate.
Qed.

Lemma colon_note_means_colon_at_column_witness :
  let t := line "b: c: d" in
  let fs := playbook [line "a: 1"; t] in
  let out := [YAML_POSITION_DETAILS (Some "playbook.yml") 2 4;
              OffendingLines "a: 1" "b: c: d" "   ^ here";
              Note YAML_COMMON_UNQUOTED_COLON_ERROR] in
  (is_sentinel (Some "playbook.yml") = false /\
   _get_error_lines_from_file fs (Some "playbook.yml") (2 - 1)
   = Ok (t, line "a: 1") /\
   _get_extended_error fs true (Some "playbook.yml") 2 4 = Ok out /\
   has_note YAML_COMMON_UNQUOTED_COLON_ERROR out = true) /\
  Py.getchar t 4 = Some ":"%char /\
  1 < Py.count ":"%char t /\
  unquoted_variable t = false.
Proof.
  split; [repeat split; reflexivity|].
  apply (colon_note_means_colon_at_column
           (playbook [line "a: 1"; line "b: c: d"])
           (Some "playbook.yml") 2 4 (line "b: c: d") (line "a: 1")
           [YAML_POSITION_DETAILS (Some "playbook.yml") 2 4;
            OffendingLines "a: 1" "b: c: d" "   ^ here";
            Note YAML_COMMON_UNQUOTED_COLON_ERROR]); reflexivity.
Defined.
